(** * Scriptorium: the blog-post edit page

    A shallow embedding of [pages/blogposts/edit/[id].tsx]: the React
    component [EditBlogPost], its event handlers and the pieces of the
    JavaScript runtime they rely on (string slicing, the regular
    expressions that look for template references, [parseInt],
    template literals, [axios] promises and [try]/[catch]/[finally]).

    Layout: the definitions come first (modules [JS], [RegExp] and
    [EditBlogPost], then the reference definitions that restate the
    specification), the lemmas and theorems follow. *)

From Stdlib Require Import String Ascii Numbers.DecimalString.
From Stdlib Require Import Numbers.DecimalPos.
From Stdlib Require Import NArith ZArith Bool List Lia.
Import ListNotations.

Set Implicit Arguments.

(* ================================================================= *)
(** ** JavaScript values *)

Module JS.

Local Open Scope N_scope.

(** A JavaScript string is a sequence of UTF-16 code units.  Every list of
    numbers below 65536 is a string; nothing below depends on the bound. *)
Definition jsstring := list N.

(** String literals of the source, written with Rocq's ASCII strings. *)
Definition js (s : string) : jsstring :=
  map N_of_ascii (list_ascii_of_string s).

Definition HASH : N := 35.        (* # *)
Definition DOLLAR : N := 36.      (* $ *)
Definition AMPERSAND : N := 38.   (* & *)
Definition APOSTROPHE : N := 39.  (* ' *)
Definition BACKTICK : N := 96.    (* ` *)
Definition PLUS_SIGN : N := 43.
Definition MINUS_SIGN : N := 45.

(** [\d] : the class [0-9]. *)
Definition isDigit (c : N) : bool := (48 <=? c) && (c <=? 57).

(** [\w] without the [i], [u] or [v] flag: the class [A-Za-z0-9_]. *)
Definition isWordChar (c : N) : bool :=
  ((97 <=? c) && (c <=? 122)) || ((65 <=? c) && (c <=? 90))
  || isDigit c || (c =? 95).

(** Truthiness of a string: only the empty string is falsy. *)
Definition truthy (s : jsstring) : bool :=
  match s with [] => false | _ :: _ => true end.

(** Truthiness of [string | null] and [string | undefined]. *)
Definition truthy_opt (v : option jsstring) : bool :=
  match v with Some s => truthy s | None => false end.

(** [v || d] where [v] is a string or [undefined]. *)
Definition or_else (v : option jsstring) (d : jsstring) : jsstring :=
  match v with
  | Some s => if truthy s then s else d
  | None => d
  end.

(** Relative index of [String.prototype.slice]: a negative argument counts
    from the end, and the result is clamped to [0, len]. *)
Definition relative_index (len i : Z) : Z :=
  if (i <? 0)%Z then Z.max (len + i) 0 else Z.min i len.

(** [s.slice(start, end)]; [end_ = None] is an omitted second argument. *)
Definition slice (s : jsstring) (start : Z) (end_ : option Z) : jsstring :=
  let len := Z.of_nat (length s) in
  let from := relative_index len start in
  let to := match end_ with
            | Some e => relative_index len e
            | None => len
            end in
  if (to <=? from)%Z then []
  else firstn (Z.to_nat (to - from)) (skipn (Z.to_nat from) s).

(** Longest prefix of [s] whose code units satisfy [p], and the rest. *)
Fixpoint span (p : N -> bool) (s : jsstring) : jsstring * jsstring :=
  match s with
  | [] => ([], [])
  | c :: t => if p c then let (a, b) := span p t in (c :: a, b)
              else ([], s)
  end.

(** *** Numbers

    The Number values that the page handles are integers and what
    [parseInt] may return instead of one; negative zero is identified with
    zero. *)
Inductive number : Type :=
| Finite (z : Z)
| PosInfinity
| NegInfinity
| NaN.

(** The Number nearest to a non-negative integer [n] (IEEE 754 binary64,
    ties to even): integers below 2^53 are exact, larger ones keep 53
    significant bits, and the result overflows from 2^1024 on. *)
Definition nearest_double (n : Z) : option Z :=
  (if n <? 2 ^ 53 then Some n
   else
     let e := Z.log2 n - 52 in
     let q := Z.shiftr n e in
     let r := n - Z.shiftl q e in
     let half := Z.shiftl 1 (e - 1) in
     let q' := if r <? half then q
               else if half <? r then q + 1
               else if Z.even q then q else q + 1 in
     let v := Z.shiftl q' e in
     if 2 ^ 1024 <=? v then None else Some v)%Z.

(** The Number for the mathematical value [sign * n], [n >= 0]. *)
Definition to_number (negative : bool) (n : Z) : number :=
  match nearest_double n with
  | Some v => Finite (if negative then - v else v)
  | None => if negative then NegInfinity else PosInfinity
  end.

(** White space and line terminators stripped by [parseInt]. *)
Definition isWhiteSpace (c : N) : bool :=
  ((9 <=? c) && (c <=? 13)) || (c =? 32) || (c =? 160) || (c =? 5760)
  || ((8192 <=? c) && (c <=? 8202)) || (c =? 8232) || (c =? 8233)
  || (c =? 8239) || (c =? 8287) || (c =? 12288) || (c =? 65279).

Fixpoint trimStart (s : jsstring) : jsstring :=
  match s with
  | c :: t => if isWhiteSpace c then trimStart t else s
  | [] => []
  end.

(** Value of a code unit as a digit of the given radix (10 or 16). *)
Definition digit_value (radix : Z) (c : N) : option Z :=
  if isDigit c then Some (Z.of_N c - 48)%Z
  else if (radix =? 16)%Z && (97 <=? c) && (c <=? 102) then Some (Z.of_N c - 87)%Z
  else if (radix =? 16)%Z && (65 <=? c) && (c <=? 70) then Some (Z.of_N c - 55)%Z
  else None.

Definition isRadixDigit (radix : Z) (c : N) : bool :=
  match digit_value radix c with Some _ => true | None => false end.

(** Mathematical value of a run of digits, most significant first. *)
Definition math_value (radix : Z) (digits : jsstring) : Z :=
  fold_left
    (fun acc c => match digit_value radix c with
                  | Some d => radix * acc + d
                  | None => acc
                  end)%Z
    digits 0%Z.

(** [parseInt(s)] with the radix omitted: leading white space and one sign
    are skipped, a [0x] or [0X] prefix selects radix 16, the longest run of
    digits is read, and its value is converted to a Number; [NaN] when
    there is no digit.  (Beyond twenty significant digits ECMAScript lets
    an implementation approximate the value before the conversion; the
    exact value is used here.) *)
Definition parseInt (s : jsstring) : number :=
  let s1 := trimStart s in
  let '(negative, s2) :=
    match s1 with
    | c :: t => if c =? MINUS_SIGN then (true, t)
                else if c =? PLUS_SIGN then (false, t)
                else (false, s1)
    | [] => (false, s1)
    end in
  let '(radix, s3) :=
    match s2 with
    | c0 :: c1 :: t => if (c0 =? 48) && ((c1 =? 120) || (c1 =? 88))
                       then (16%Z, t) else (10%Z, s2)
    | _ => (10%Z, s2)
    end in
  let digits := fst (span (isRadixDigit radix) s3) in
  match digits with
  | [] => NaN
  | _ :: _ => to_number negative (math_value radix digits)
  end.

(** [String(n)] and [`${n}`] for an integer [n]: its decimal numeral, with
    a leading minus sign when negative.  This is Number::toString on the
    integers of magnitude below 2^53, which are all Numbers and are printed
    digit by digit; beyond that range a Number is printed with its
    shortest round-trip digits, and in exponent form from 10^21 on, which
    is not modelled.  Template identifiers are database keys far below
    2^53, and every statement about the numeral of an id assumes that
    range. *)
Definition Number_toString (n : Z) : jsstring :=
  js (NilZero.string_of_int (Z.to_int n)).

End JS.

(* ================================================================= *)
(** ** Regular expressions

    The backtracking matcher of ECMAScript (22.2.2), for the pattern
    constructs the page uses: a matcher takes a match state and a
    continuation and either returns the final state of a successful match
    or fails, in which case the caller tries its next alternative. *)

Module RegExp.

Import JS.

Inductive Pattern : Type :=
| Char (c : N)                   (* a literal code unit *)
| Class (p : N -> bool)          (* a character class escape *)
| Seq (r1 r2 : Pattern)          (* r1 r2 *)
| Star (r : Pattern)             (* r*, greedy *)
| Group (n : nat) (r : Pattern)  (* the n-th capturing group *)
| AssertEnd.                     (* $ without the m flag *)

(** [r+], greedy. *)
Definition Plus (r : Pattern) : Pattern := Seq r (Star r).

(** A match state: the index reached in the input, the input from there
    on, and the captures made so far (latest first). *)
Record MatchState : Type := {
  endIndex : nat;
  rest : jsstring;
  captures : list (nat * jsstring)
}.

Definition MatcherContinuation := MatchState -> option MatchState.

(** Consume one code unit that satisfies [p]. *)
Definition CharacterSetMatcher (p : N -> bool) (x : MatchState)
    (c : MatcherContinuation) : option MatchState :=
  match rest x with
  | [] => None
  | ch :: t =>
      if p ch
      then c {| endIndex := S (endIndex x); rest := t; captures := captures x |}
      else None
  end.

(** The matcher of a pattern.  [Star] is RepeatMatcher with [min = 0] and
    [max] infinite: it first tries one more iteration, which has to consume
    input, and falls back on the continuation.  An iteration consumes at
    least one code unit, so the length of the remaining input bounds the
    number of iterations. *)
Fixpoint matcher (r : Pattern) (x : MatchState) (c : MatcherContinuation)
    {struct r} : option MatchState :=
  match r with
  | Char ch => CharacterSetMatcher (N.eqb ch) x c
  | Class p => CharacterSetMatcher p x c
  | Seq r1 r2 => matcher r1 x (fun y => matcher r2 y c)
  | Star r1 =>
      (fix repeat (fuel : nat) (x : MatchState) {struct fuel}
         : option MatchState :=
         match fuel with
         | O => c x
         | S fuel' =>
             match matcher r1 x
                     (fun y => if endIndex y =? endIndex x then None
                               else repeat fuel' y)%nat with
             | Some z => Some z
             | None => c x
             end
         end) (length (rest x)) x
  | Group n r1 =>
      matcher r1 x
        (fun y =>
           let cap := firstn (endIndex y - endIndex x) (rest x) in
           c {| endIndex := endIndex y; rest := rest y;
                captures := (n, cap) :: captures y |})
  | AssertEnd => match rest x with [] => c x | _ :: _ => None end
  end.

(** The result array of a successful match: [index], element 0 (the
    matched substring), the captures, and the index where the match ends. *)
Record MatchResult : Type := {
  index : nat;
  matched : jsstring;
  groups : list (nat * jsstring);
  lastIndex : nat
}.

(** [m[n]] for [n >= 1]: [None] is [undefined]. *)
Definition capture (m : MatchResult) (n : nat) : option jsstring :=
  option_map snd (find (fun g => Nat.eqb (fst g) n) (groups m)).

(** Try to match at index [i], where [s] is the input from [i] on, then at
    each later index. *)
Fixpoint search (r : Pattern) (i : nat) (s : jsstring) : option MatchResult :=
  match matcher r {| endIndex := i; rest := s; captures := [] |} Some with
  | Some y =>
      Some {| index := i; matched := firstn (endIndex y - i) s;
              groups := captures y; lastIndex := endIndex y |}
  | None =>
      match s with
      | [] => None
      | _ :: t => search r (S i) t
      end
  end.

(** RegExpBuiltinExec without the sticky flag, started at [lastIndex]. *)
Definition exec (r : Pattern) (s : jsstring) (lastIndex : nat)
    : option MatchResult :=
  if (length s <? lastIndex)%nat then None
  else search r lastIndex (skipn lastIndex s).

(** [s.match(r)] for a pattern without the g flag. *)
Definition String_match (s : jsstring) (r : Pattern) : option MatchResult :=
  exec r s 0.

(** [Array.from(s.matchAll(r))] for a pattern with the g flag: matches are
    taken from left to right, each search starting where the previous
    match ended, one further after an empty match. *)
Fixpoint matchAll_from (fuel : nat) (r : Pattern) (s : jsstring)
    (lastIndex : nat) : list MatchResult :=
  match fuel with
  | O => []
  | S fuel' =>
      match exec r s lastIndex with
      | None => []
      | Some m =>
          let next := match matched m with
                      | [] => S (RegExp.lastIndex m)
                      | _ :: _ => RegExp.lastIndex m
                      end in
          m :: matchAll_from fuel' r s next
      end
  end.

Definition String_matchAll (s : jsstring) (r : Pattern) : list MatchResult :=
  matchAll_from (length s + 2) r s 0.

(** GetSubstitution: expansion of the [$] patterns of a replacement
    string.  [before] and [after] are the parts of the subject around the
    match; the pattern has [m] capturing groups and no named group. *)
Fixpoint GetSubstitution (matched before after : jsstring)
    (caps : list (nat * jsstring)) (m : nat) (template : jsstring)
    : jsstring :=
  let cap n := match find (fun g => Nat.eqb (fst g) n) caps with
               | Some g => snd g
               | None => []
               end in
  let valid n := (Nat.leb 1 n && Nat.leb n m)%bool in
  match template with
  | [] => []
  | c :: t =>
      if negb (c =? DOLLAR)%N
      then c :: GetSubstitution matched before after caps m t
      else
        match t with
        | [] => [c]
        | d :: t' =>
            if (d =? DOLLAR)%N
            then DOLLAR :: GetSubstitution matched before after caps m t'
            else if (d =? AMPERSAND)%N
            then matched ++ GetSubstitution matched before after caps m t'
            else if (d =? BACKTICK)%N
            then before ++ GetSubstitution matched before after caps m t'
            else if (d =? APOSTROPHE)%N
            then after ++ GetSubstitution matched before after caps m t'
            else if isDigit d
            then
              let d1 := N.to_nat (d - 48) in
              match t' with
              | e :: t'' =>
                  let d2 := N.to_nat (e - 48) in
                  if isDigit e && valid (10 * d1 + d2)
                  then cap (10 * d1 + d2)
                       ++ GetSubstitution matched before after caps m t''
                  else if valid d1
                  then cap d1 ++ GetSubstitution matched before after caps m t'
                  else c :: GetSubstitution matched before after caps m t
              | [] =>
                  if valid d1 then cap d1
                  else c :: GetSubstitution matched before after caps m t
              end
            else c :: GetSubstitution matched before after caps m t
        end
  end.

(** [s.replace(r, replacement)] for a pattern with [m] capturing groups
    and no g flag, and a replacement string: the first match is replaced
    by the expanded replacement; without a match [s] is returned. *)
Definition String_replace (s : jsstring) (r : Pattern) (m : nat)
    (replacement : jsstring) : jsstring :=
  match exec r s 0 with
  | None => s
  | Some res =>
      let before := firstn (index res) s in
      let after := skipn (lastIndex res) s in
      before
      ++ GetSubstitution (matched res) before after (groups res) m replacement
      ++ after
  end.

End RegExp.

(* ================================================================= *)
(** ** The page: data, state and effects *)

Module EditBlogPost.

Import JS RegExp.

Record Template : Type := {
  template_id : Z;
  template_title : jsstring
}.

Record BlogPost : Type := {
  post_id : Z;
  post_title : jsstring;
  post_description : jsstring;
  post_content : jsstring;
  post_tag : jsstring;
  post_templates : list Template
}.

(** The [useState] cells of the component, under the names of the source. *)
Record State : Type := {
  title : jsstring;
  description : jsstring;
  content : jsstring;
  tag : jsstring;
  error : option jsstring;
  success : option jsstring;
  loading : bool;
  matchingTemplates : list Template;
  showTemplatePopup : bool;
  cursorPosition : nat;
  initialLoading : bool
}.

Definition initialState : State :=
  {| title := []; description := []; content := []; tag := [];
     error := None; success := None; loading := false;
     matchingTemplates := []; showTemplatePopup := false;
     cursorPosition := 0; initialLoading := true |}.

(** [router.query.id]: [string | string[] | undefined]. *)
Inductive QueryValue : Type :=
| QUndefined
| QString (s : jsstring)
| QArray (l : list jsstring).

Definition truthy_query (q : QueryValue) : bool :=
  match q with
  | QUndefined => false
  | QString s => truthy s
  | QArray _ => true
  end.

Fixpoint join (sep : jsstring) (l : list jsstring) : jsstring :=
  match l with
  | [] => []
  | [s] => s
  | s :: l' => s ++ sep ++ join sep l'
  end.

(** [`${q}`]. *)
Definition query_toString (q : QueryValue) : jsstring :=
  match q with
  | QUndefined => js "undefined"
  | QString s => s
  | QArray l => join (js ",") l
  end.

(** *** HTTP through axios *)

Inductive Method : Type := GET | PUT.

(** The body of the update request. *)
Record UpdateBody : Type := {
  body_title : jsstring;
  body_description : jsstring;
  body_content : jsstring;
  body_tag : jsstring;
  body_templateIds : list number
}.

Record HttpRequest : Type := {
  method : Method;
  url : jsstring;
  params : list (jsstring * jsstring);
  body : option UpdateBody;
  headers : list (jsstring * jsstring)
}.

(** [response.data], with the two properties the page reads; an absent
    property is [undefined].  A body that is not an object, such as the
    empty string that axios gives for an empty response, has neither
    property. *)
Record ResponseData : Type := {
  blogPost : option BlogPost;
  codeTemplates : option (list Template)
}.

(** A response; [data = None] is a [response.data] that is [null] or
    [undefined] (a JSON [null] body), on which reading a property
    throws. *)
Record Response : Type := {
  status : Z;
  data : option ResponseData
}.

(** [err.response] of an axios error, with [data?.error] read off. *)
Record ErrorResponse : Type := {
  error_status : Z;
  error_message : option jsstring
}.

(** What the page can catch: a rejection by axios ([response] is
    [undefined] when no answer arrived) or a TypeError raised by reading a
    property of [undefined]. *)
Inductive Error : Type :=
| AxiosError (response : option ErrorResponse)
| TypeError.

(** [err.response?.data?.error]. *)
Definition response_error (err : Error) : option jsstring :=
  match err with
  | AxiosError (Some r) => error_message r
  | AxiosError None => None
  | TypeError => None
  end.

(** How the promise of an axios call settles. *)
Inductive AxiosResult : Type :=
| Resolved (r : Response)
| Rejected (e : Error).

(** *** Observable effects *)

Inductive Callback : Type :=
| RouterPush (path : jsstring).

Inductive Event : Type :=
| Issued (r : HttpRequest)                    (* a request went out *)
| ConsoleError (msg : jsstring) (err : Error) (* console.error(msg, err) *)
| SetTimeout (cb : Callback) (ms : Z).        (* setTimeout(cb, ms) *)

(** *** Asynchronous code

    A function body is a tree of effects.  State setters, [console] and
    timer calls and reads of local storage happen at once; an axios call
    suspends the function until its promise settles; [Spawn] calls an
    async function without awaiting it. *)

Inductive Completion : Type :=
| Normal
| Return
| Throw (e : Error).

Inductive Async : Type :=
| Done (c : Completion)
| Update (f : State -> State) (k : Async)
| Perform (e : Event) (k : Async)
| GetItem (key : jsstring) (k : option jsstring -> Async)
| Await (r : HttpRequest) (k : AxiosResult -> Async)
| Spawn (p : Async) (k : Async).

(** [p; q] *)
Fixpoint seq (p q : Async) : Async :=
  match p with
  | Done Normal => q
  | Done c => Done c
  | Update f k => Update f (seq k q)
  | Perform e k => Perform e (seq k q)
  | GetItem key k => GetItem key (fun v => seq (k v) q)
  | Await r k => Await r (fun a => seq (k a) q)
  | Spawn p' k => Spawn p' (seq k q)
  end.

Declare Scope async_scope.
Delimit Scope async_scope with async.
Bind Scope async_scope with Async.
Notation "p ;; q" := (seq p q)
  (at level 61, right associativity) : async_scope.
Local Open Scope async_scope.

(** [try { p } catch (err) { h err }] *)
Fixpoint try_catch (p : Async) (h : Error -> Async) : Async :=
  match p with
  | Done (Throw e) => h e
  | Done c => Done c
  | Update f k => Update f (try_catch k h)
  | Perform e k => Perform e (try_catch k h)
  | GetItem key k => GetItem key (fun v => try_catch (k v) h)
  | Await r k => Await r (fun a => try_catch (k a) h)
  | Spawn p' k => Spawn p' (try_catch k h)
  end.

(** Run the finalizer [f], then complete as [c] did unless [f] itself
    returned or threw. *)
Fixpoint complete_with (f : Async) (c : Completion) : Async :=
  match f with
  | Done Normal => Done c
  | Done c' => Done c'
  | Update g k => Update g (complete_with k c)
  | Perform e k => Perform e (complete_with k c)
  | GetItem key k => GetItem key (fun v => complete_with (k v) c)
  | Await r k => Await r (fun a => complete_with (k a) c)
  | Spawn p' k => Spawn p' (complete_with k c)
  end.

(** [try { p } finally { f }] *)
Fixpoint try_finally (p f : Async) : Async :=
  match p with
  | Done c => complete_with f c
  | Update g k => Update g (try_finally k f)
  | Perform e k => Perform e (try_finally k f)
  | GetItem key k => GetItem key (fun v => try_finally (k v) f)
  | Await r k => Await r (fun a => try_finally (k a) f)
  | Spawn p' k => Spawn p' (try_finally k f)
  end.

(** The body of a function: [return] ends the function, not its caller. *)
Fixpoint function_body (p : Async) : Async :=
  match p with
  | Done Return => Done Normal
  | Done c => Done c
  | Update f k => Update f (function_body k)
  | Perform e k => Perform e (function_body k)
  | GetItem key k => GetItem key (fun v => function_body (k v))
  | Await r k => Await r (fun a => function_body (k a))
  | Spawn p' k => Spawn p' (function_body k)
  end.

(** [if (b) { p }] *)
Definition when (b : bool) (p : Async) : Async :=
  if b then p else Done Normal.

(** [await axios(request)]: a rejected promise throws at the [await]. *)
Definition await_axios (r : HttpRequest) (k : Response -> Async) : Async :=
  Await r (fun a => match a with
                    | Resolved resp => k resp
                    | Rejected e => Done (Throw e)
                    end).

(** *** Running a function

    [run] executes a tree up to its first suspension.  The configuration
    holds the component state, the effects performed so far and the
    spawned calls that wait for an answer. *)

Definition Storage := jsstring -> option jsstring.

Record Config : Type := {
  state : State;
  trace : list Event;
  waiting : list (HttpRequest * (AxiosResult -> Async))
}.

Inductive Status : Type :=
| Finished (c : Completion)
| Suspended (r : HttpRequest) (k : AxiosResult -> Async).

Definition start (st : State) : Config :=
  {| state := st; trace := []; waiting := [] |}.

Fixpoint run (localStorage : Storage) (p : Async) (cfg : Config)
    : Status * Config :=
  match p with
  | Done c => (Finished c, cfg)
  | Update f k =>
      run localStorage k
        {| state := f (state cfg); trace := trace cfg;
           waiting := waiting cfg |}
  | Perform e k =>
      run localStorage k
        {| state := state cfg; trace := trace cfg ++ [e];
           waiting := waiting cfg |}
  | GetItem key k => run localStorage (k (localStorage key)) cfg
  | Await r k =>
      (Suspended r k,
       {| state := state cfg; trace := trace cfg ++ [Issued r];
          waiting := waiting cfg |})
  | Spawn p' k =>
      let (s, cfg') := run localStorage p' cfg in
      run localStorage k
        match s with
        | Finished _ => cfg'
        | Suspended r k' =>
            {| state := state cfg'; trace := trace cfg';
               waiting := waiting cfg' ++ [(r, k')] |}
        end
  end.

(** The request a suspended function waits for. *)
Definition awaited (s : Status) : option HttpRequest :=
  match s with
  | Suspended r _ => Some r
  | Finished _ => None
  end.

(** The function goes on when the promise it awaits settles as [a]; the
    component may have changed state in the meantime. *)
Definition resume (localStorage : Storage) (s : Status) (a : AxiosResult)
    (cfg : Config) : Status * Config :=
  match s with
  | Suspended _ k => run localStorage (k a) cfg
  | Finished c => (Finished c, cfg)
  end.

(** The requests issued in a trace. *)
Definition requests (tr : list Event) : list HttpRequest :=
  flat_map (fun e => match e with Issued r => [r] | _ => [] end) tr.

(** The timers set in a trace. *)
Definition timers (tr : list Event) : list (Callback * Z) :=
  flat_map (fun e => match e with SetTimeout cb ms => [(cb, ms)] | _ => [] end)
    tr.

(** *** State setters *)

Definition setTitle (v : jsstring) : Async :=
  Update (fun s =>
    {| title := v; description := description s; content := content s;
       tag := tag s; error := error s; success := success s;
       loading := loading s; matchingTemplates := matchingTemplates s;
       showTemplatePopup := showTemplatePopup s;
       cursorPosition := cursorPosition s;
       initialLoading := initialLoading s |}) (Done Normal).

Definition setDescription (v : jsstring) : Async :=
  Update (fun s =>
    {| title := title s; description := v; content := content s;
       tag := tag s; error := error s; success := success s;
       loading := loading s; matchingTemplates := matchingTemplates s;
       showTemplatePopup := showTemplatePopup s;
       cursorPosition := cursorPosition s;
       initialLoading := initialLoading s |}) (Done Normal).

Definition setContent (v : jsstring) : Async :=
  Update (fun s =>
    {| title := title s; description := description s; content := v;
       tag := tag s; error := error s; success := success s;
       loading := loading s; matchingTemplates := matchingTemplates s;
       showTemplatePopup := showTemplatePopup s;
       cursorPosition := cursorPosition s;
       initialLoading := initialLoading s |}) (Done Normal).

Definition setTag (v : jsstring) : Async :=
  Update (fun s =>
    {| title := title s; description := description s; content := content s;
       tag := v; error := error s; success := success s;
       loading := loading s; matchingTemplates := matchingTemplates s;
       showTemplatePopup := showTemplatePopup s;
       cursorPosition := cursorPosition s;
       initialLoading := initialLoading s |}) (Done Normal).

Definition setError (v : option jsstring) : Async :=
  Update (fun s =>
    {| title := title s; description := description s; content := content s;
       tag := tag s; error := v; success := success s;
       loading := loading s; matchingTemplates := matchingTemplates s;
       showTemplatePopup := showTemplatePopup s;
       cursorPosition := cursorPosition s;
       initialLoading := initialLoading s |}) (Done Normal).

Definition setSuccess (v : option jsstring) : Async :=
  Update (fun s =>
    {| title := title s; description := description s; content := content s;
       tag := tag s; error := error s; success := v;
       loading := loading s; matchingTemplates := matchingTemplates s;
       showTemplatePopup := showTemplatePopup s;
       cursorPosition := cursorPosition s;
       initialLoading := initialLoading s |}) (Done Normal).

Definition setLoading (v : bool) : Async :=
  Update (fun s =>
    {| title := title s; description := description s; content := content s;
       tag := tag s; error := error s; success := success s;
       loading := v; matchingTemplates := matchingTemplates s;
       showTemplatePopup := showTemplatePopup s;
       cursorPosition := cursorPosition s;
       initialLoading := initialLoading s |}) (Done Normal).

Definition setMatchingTemplates (v : list Template) : Async :=
  Update (fun s =>
    {| title := title s; description := description s; content := content s;
       tag := tag s; error := error s; success := success s;
       loading := loading s; matchingTemplates := v;
       showTemplatePopup := showTemplatePopup s;
       cursorPosition := cursorPosition s;
       initialLoading := initialLoading s |}) (Done Normal).

Definition setShowTemplatePopup (v : bool) : Async :=
  Update (fun s =>
    {| title := title s; description := description s; content := content s;
       tag := tag s; error := error s; success := success s;
       loading := loading s; matchingTemplates := matchingTemplates s;
       showTemplatePopup := v;
       cursorPosition := cursorPosition s;
       initialLoading := initialLoading s |}) (Done Normal).

Definition setCursorPosition (v : nat) : Async :=
  Update (fun s =>
    {| title := title s; description := description s; content := content s;
       tag := tag s; error := error s; success := success s;
       loading := loading s; matchingTemplates := matchingTemplates s;
       showTemplatePopup := showTemplatePopup s;
       cursorPosition := v;
       initialLoading := initialLoading s |}) (Done Normal).

Definition setInitialLoading (v : bool) : Async :=
  Update (fun s =>
    {| title := title s; description := description s; content := content s;
       tag := tag s; error := error s; success := success s;
       loading := loading s; matchingTemplates := matchingTemplates s;
       showTemplatePopup := showTemplatePopup s;
       cursorPosition := cursorPosition s;
       initialLoading := v |}) (Done Normal).

Definition console_error (msg : jsstring) (err : Error) : Async :=
  Perform (ConsoleError msg err) (Done Normal).

Definition setTimeout (cb : Callback) (ms : Z) : Async :=
  Perform (SetTimeout cb ms) (Done Normal).

(** *** The patterns of the source *)

(** A hash, a captured run of word characters (possibly empty), the end
    of the input: the pattern of [handleContentChange]. *)
Definition re_search_token : Pattern :=
  Seq (Char HASH) (Seq (Group 1 (Star (Class isWordChar))) AssertEnd).

(** The same without the group: the pattern of [handleTemplateSelect]. *)
Definition re_trailing_token : Pattern :=
  Seq (Char HASH) (Seq (Star (Class isWordChar)) AssertEnd).

(** A hash and a captured run of one or more digits, with the g flag: the
    pattern of [extractTemplateIds]. *)
Definition re_template_id : Pattern :=
  Seq (Char HASH) (Group 1 (Plus (Class isDigit))).

(** [e.target] of a change event of the text area. *)
Record ChangeEvent : Type := {
  value : jsstring;
  selectionStart : nat
}.

(** *** The component

    One render of [EditBlogPost] closes its handlers over the route
    parameter [id] and over the state [st] of that render. *)

Section Component.

Variable id : QueryValue.
Variable st : State.

Definition fetchBlogPost : Async :=
  function_body
    (when (negb (truthy_query id)) (Done Return) ;;
     try_finally
       (try_catch
          (GetItem (js "accessToken") (fun token =>
             when (negb (truthy_opt token))
               (setError (Some (js "You need to be logged in to edit posts")) ;;
                Done Return) ;;
             await_axios
               {| method := GET;
                  url := js "/api/blogposts/" ++ query_toString id;
                  params := [];
                  body := None;
                  headers :=
                    [(js "Authorization",
                      js "Bearer " ++ match token with
                                      | Some t => t
                                      | None => js "null"
                                      end)] |}
               (fun response =>
                  match data response with
                  | None => Done (Throw TypeError)
                  | Some d =>
                      match blogPost d with
                      | None => Done (Throw TypeError)
                      | Some post =>
                          setTitle (post_title post) ;;
                          setDescription (post_description post) ;;
                          setContent (post_content post) ;;
                          setTag (post_tag post)
                      end
                  end)))
          (fun err =>
             setError
               (Some (or_else (response_error err)
                        (js "Failed to load blog post")))))
       (setInitialLoading false)).

Definition handleTemplateSearch (searchText : jsstring) : Async :=
  function_body
    (try_catch
       (await_axios
          {| method := GET;
             url := js "/api/codetemplates";
             params := [(js "title", searchText)];
             body := None;
             headers := [] |}
          (fun response =>
             match data response with
             | None => Done (Throw TypeError)
             | Some d =>
                 setMatchingTemplates
                   match codeTemplates d with
                   | Some l => l
                   | None => []
                   end
             end))
       (fun err => console_error (js "Failed to fetch templates:") err)).

Definition handleContentChange (e : ChangeEvent) : Async :=
  function_body
    (let newContent := value e in
     setContent newContent ;;
     let currentCursorPosition := selectionStart e in
     setCursorPosition currentCursorPosition ;;
     let match_ :=
       String_match
         (slice newContent 0 (Some (Z.of_nat currentCursorPosition)))
         re_search_token in
     match match_ with
     | Some m =>
         let searchText := match capture m 1 with
                           | Some s => s
                           | None => []
                           end in
         when (0 <? length searchText)%nat
           (Spawn (handleTemplateSearch searchText) (Done Normal) ;;
            setShowTemplatePopup true)
     | None => setShowTemplatePopup false
     end).

Definition handleTemplateSelect (template : Template) : Async :=
  function_body
    (let beforeCursor :=
       String_replace
         (slice (content st) 0 (Some (Z.of_nat (cursorPosition st))))
         re_trailing_token 0
         (HASH :: Number_toString (template_id template)) in
     let afterCursor :=
       slice (content st) (Z.of_nat (cursorPosition st)) None in
     setContent (beforeCursor ++ afterCursor) ;;
     setShowTemplatePopup false).

Definition extractTemplateIds : list number :=
  let matches := String_matchAll (content st) re_template_id in
  map (fun m => parseInt match capture m 1 with
                         | Some s => s
                         | None => js "undefined"
                         end)
    matches.

Definition handleUpdatePost : Async :=
  function_body
    (when (negb (truthy (title st)) || negb (truthy (description st))
           || negb (truthy (content st)) || negb (truthy (tag st)))
       (setError (Some (js "All fields are required!")) ;;
        Done Return) ;;
     let templateIds := extractTemplateIds in
     setLoading true ;;
     setError None ;;
     setSuccess None ;;
     try_finally
       (try_catch
          (GetItem (js "accessToken") (fun token =>
             when (negb (truthy_opt token))
               (setError
                  (Some (js "You need to log in to update the blog post.")) ;;
                Done Return) ;;
             await_axios
               {| method := PUT;
                  url := js "/api/blogposts/" ++ query_toString id;
                  params := [];
                  body :=
                    Some {| body_title := title st;
                            body_description := description st;
                            body_content := content st;
                            body_tag := tag st;
                            body_templateIds := templateIds |};
                  headers :=
                    [(js "Authorization",
                      js "Bearer " ++ match token with
                                      | Some t => t
                                      | None => js "null"
                                      end)] |}
               (fun response =>
                  when (status response =? 200)%Z
                    (setSuccess (Some (js "Blog post updated successfully!")) ;;
                     setTimeout
                       (RouterPush (js "/blogposts/" ++ query_toString id))
                       2000))))
          (fun err =>
             setError
               (Some (or_else (response_error err)
                        (js "Failed to update blog post.")))))
       (setLoading false)).

End Component.

End EditBlogPost.

(* ================================================================= *)
(** ** Reference definitions

    Stated from the specification's wording, to be compared with what the
    handlers compute. *)

Module Reference.

Import JS EditBlogPost.

(** "All occurrences of [#<digits>]", in order of occurrence: every hash
    that is followed by at least one digit contributes the run of digits
    that follows it. *)
Fixpoint template_references (s : jsstring) : list jsstring :=
  match s with
  | [] => []
  | c :: t =>
      if (c =? HASH)%N
      then match fst (span isDigit t) with
           | [] => template_references t
           | d :: ds => (d :: ds) :: template_references t
           end
      else template_references t
  end.

(** The numeric value of a run of decimal digits, as a Number. *)
Definition numeric_value (digits : jsstring) : number :=
  to_number false (math_value 10 digits).

(** "The text preceding the caret ends in a hash followed by the word
    characters [token]". *)
Definition ends_with_token (text token : jsstring) : Prop :=
  exists before : jsstring,
    text = before ++ HASH :: token /\ forallb isWordChar token = true.

(** The request of a template search by title prefix. *)
Definition search_request (token : jsstring) : HttpRequest :=
  {| method := GET; url := js "/api/codetemplates";
     params := [(js "title", token)]; body := None; headers := [] |}.

(** A request to the post's own endpoint carrying the bearer token. *)
Definition post_request (m : Method) (id : QueryValue) (token : jsstring)
    (b : option UpdateBody) : HttpRequest :=
  {| method := m; url := js "/api/blogposts/" ++ query_toString id;
     params := []; body := b;
     headers := [(js "Authorization", js "Bearer " ++ token)] |}.

(** [st] with its error message replaced. *)
Definition with_error (st : State) (msg : option jsstring) : State :=
  {| title := title st; description := description st;
     content := content st; tag := tag st; error := msg;
     success := success st; loading := loading st;
     matchingTemplates := matchingTemplates st;
     showTemplatePopup := showTemplatePopup st;
     cursorPosition := cursorPosition st;
     initialLoading := initialLoading st |}.

(** A post being edited, for the examples: the content, the caret offset,
    whether the popup is open and the matches it lists. *)
Definition draft (text : string) (caret : nat) (popup : bool)
    (matches : list Template) : State :=
  {| title := js "Notes"; description := js "On folds";
     content := js text; tag := js "fp";
     error := None; success := None; loading := false;
     matchingTemplates := matches; showTemplatePopup := popup;
     cursorPosition := caret; initialLoading := false |}.

End Reference.

(* ================================================================= *)
(** ** What the component renders *)

Module View.

Import JS EditBlogPost.

(** The form, without its styling: the two alerts (an alert is rendered
    when its message is truthy), the values of the four inputs, the
    templates listed in the popup when it is rendered, and the state of
    the update button. *)
Record Form : Type := {
  errorAlert : option jsstring;
  successAlert : option jsstring;
  titleInput : jsstring;
  descriptionInput : jsstring;
  contentInput : jsstring;
  tagInput : jsstring;
  templatePopup : option (list Template);
  updateDisabled : bool;
  updateLabel : jsstring
}.

Inductive Screen : Type :=
| LoadingScreen          (* "Loading post..." *)
| EditForm (f : Form).

(** [message && <div>...</div>] *)
Definition alert (message : option jsstring) : option jsstring :=
  if truthy_opt message then message else None.

(** The value returned by the component for the state [st]. *)
Definition render (st : State) : Screen :=
  if initialLoading st then LoadingScreen
  else
    EditForm
      {| errorAlert := alert (error st);
         successAlert := alert (success st);
         titleInput := title st;
         descriptionInput := description st;
         contentInput := content st;
         tagInput := tag st;
         templatePopup :=
           if showTemplatePopup st
              && (0 <? length (matchingTemplates st))%nat
           then Some (matchingTemplates st)
           else None;
         updateDisabled := loading st;
         updateLabel := if loading st then js "Updating..."
                        else js "Update Post" |}.

End View.

(* ================================================================= *)
(** ** Vocabulary for the behaviour of the page *)

Module Behaviour.

Import JS EditBlogPost View.


(** [st] with its content replaced. *)
Definition with_content (st : State) (c : jsstring) : State :=
  {| title := title st; description := description st;
     content := c; tag := tag st; error := error st;
     success := success st; loading := loading st;
     matchingTemplates := matchingTemplates st;
     showTemplatePopup := showTemplatePopup st;
     cursorPosition := cursorPosition st;
     initialLoading := initialLoading st |}.

(** [st] with its list of matching templates replaced. *)
Definition with_matches (st : State) (l : list Template) : State :=
  {| title := title st; description := description st;
     content := content st; tag := tag st; error := error st;
     success := success st; loading := loading st;
     matchingTemplates := l;
     showTemplatePopup := showTemplatePopup st;
     cursorPosition := cursorPosition st;
     initialLoading := initialLoading st |}.

(** The ids that [extractTemplateIds] reads in a content. *)
Definition ids_in (c : jsstring) : list number :=
  extractTemplateIds (with_content initialState c).

(** The four editable fields of two states agree. *)
Definition same_fields (a b : State) : Prop :=
  title a = title b /\ description a = description b
  /\ content a = content b /\ tag a = tag b.

(** Two states agree on everything the editor and its popup hold: the
    four fields, the matches, the popup flag and the caret. *)
Definition same_editor (a b : State) : Prop :=
  same_fields a b
  /\ matchingTemplates a = matchingTemplates b
  /\ showTemplatePopup a = showTemplatePopup b
  /\ cursorPosition a = cursorPosition b.

(** Every message that is set is a non-empty string, hence rendered. *)
Definition messages_visible (st : State) : Prop :=
  (error st = None \/ truthy_opt (error st) = true)
  /\ (success st = None \/ truthy_opt (success st) = true).

(** A Number that is a non-negative integer or positive infinity. *)
Definition is_natural (v : number) : Prop :=
  match v with
  | Finite z => (0 <= z)%Z
  | PosInfinity => True
  | NegInfinity => False
  | NaN => False
  end.

(** The text does not start with a digit. *)
Definition no_leading_digit (s : jsstring) : Prop :=
  fst (span isDigit s) = [].

End Behaviour.

(* ================================================================= *)
(** ** Facts about the runtime *)

Import JS RegExp EditBlogPost Reference View Behaviour.

Section Strings.

Lemma slice_prefix (s : jsstring) (n : nat) :
  slice s 0 (Some (Z.of_nat n)) = firstn n s.
Proof.
  unfold slice, relative_index.
  assert (H0 : (0 <? 0)%Z = false) by reflexivity. rewrite H0.
  assert (Hn : (Z.of_nat n <? 0)%Z = false) by (apply Z.ltb_ge; lia).
  rewrite Hn.
  rewrite (Z.min_l 0) by lia.
  destruct (Z.leb_spec (Z.min (Z.of_nat n) (Z.of_nat (length s))) 0) as [Hle|Hgt].
  - destruct n as [|n]; [reflexivity|].
    destruct s as [|c s]; [reflexivity|]. simpl length in Hle. lia.
  - rewrite Z.sub_0_r. simpl skipn.
    destruct (Nat.le_gt_cases n (length s)) as [Hs|Hs].
    + rewrite Z.min_l by lia. now rewrite Nat2Z.id.
    + rewrite Z.min_r by lia. rewrite Nat2Z.id.
      now rewrite !firstn_all2 by lia.
Qed.

Lemma slice_suffix (s : jsstring) (n : nat) :
  slice s (Z.of_nat n) None = skipn n s.
Proof.
  unfold slice, relative_index.
  assert (Hn : (Z.of_nat n <? 0)%Z = false) by (apply Z.ltb_ge; lia).
  rewrite Hn.
  destruct (Z.leb_spec (Z.of_nat (length s))
              (Z.min (Z.of_nat n) (Z.of_nat (length s)))) as [Hle|Hgt].
  - symmetry. apply skipn_all2. lia.
  - rewrite Z.min_l by lia. rewrite Nat2Z.id.
    apply firstn_all2. rewrite length_skipn. lia.
Qed.

Lemma slice_split (s : jsstring) (n : nat) :
  slice s 0 (Some (Z.of_nat n)) ++ slice s (Z.of_nat n) None = s.
Proof. rewrite slice_prefix, slice_suffix. apply firstn_skipn. Qed.

Lemma span_app (p : N -> bool) (s : jsstring) :
  fst (span p s) ++ snd (span p s) = s.
Proof.
  induction s as [|c t IH]; simpl; [reflexivity|].
  destruct (p c); [|reflexivity].
  destruct (span p t) as [a b]. simpl in *. now rewrite IH.
Qed.

Lemma span_forallb (p : N -> bool) (s : jsstring) :
  forallb p (fst (span p s)) = true.
Proof.
  induction s as [|c t IH]; simpl; [reflexivity|].
  destruct (p c) eqn:Hc; [|reflexivity].
  destruct (span p t) as [a b]. simpl in *. now rewrite Hc.
Qed.

Lemma span_all (p : N -> bool) (s : jsstring) :
  forallb p s = true -> span p s = (s, []).
Proof.
  induction s as [|c t IH]; simpl; [reflexivity|].
  intros H. apply andb_true_iff in H as [Hc Ht].
  rewrite Hc, (IH Ht). reflexivity.
Qed.

End Strings.

Section Matching.

(** The equations of the matcher, one per construct. *)
Lemma matcher_seq (r1 r2 : Pattern) (x : MatchState) (c : MatcherContinuation) :
  matcher (Seq r1 r2) x c = matcher r1 x (fun y => matcher r2 y c).
Proof. reflexivity. Qed.

Lemma matcher_char (ch : N) (x : MatchState) (c : MatcherContinuation) :
  matcher (Char ch) x c = CharacterSetMatcher (N.eqb ch) x c.
Proof. reflexivity. Qed.

Lemma matcher_class (q : N -> bool) (x : MatchState) (c : MatcherContinuation) :
  matcher (Class q) x c = CharacterSetMatcher q x c.
Proof. reflexivity. Qed.

Lemma matcher_group (n : nat) (r : Pattern) (x : MatchState)
    (c : MatcherContinuation) :
  matcher (Group n r) x c
  = matcher r x
      (fun y =>
         c {| endIndex := endIndex y; rest := rest y;
              captures :=
                (n, firstn (endIndex y - endIndex x) (rest x)) :: captures y |}).
Proof. reflexivity. Qed.

Lemma matcher_end (x : MatchState) (c : MatcherContinuation) :
  matcher AssertEnd x c = match rest x with [] => c x | _ :: _ => None end.
Proof. reflexivity. Qed.

Variable p : N -> bool.

(** Unfolding a greedy repetition of a character class: on an empty
    input it hands over to the continuation; otherwise it takes one more
    code unit when it can, and backtracks if what follows fails. *)
Lemma star_class_nil (i : nat) (caps : list (nat * jsstring))
    (k : MatcherContinuation) :
  matcher (Star (Class p)) {| endIndex := i; rest := []; captures := caps |} k
  = k {| endIndex := i; rest := []; captures := caps |}.
Proof. reflexivity. Qed.

Lemma star_class_cons (i : nat) (ch : N) (t : jsstring)
    (caps : list (nat * jsstring)) (k : MatcherContinuation) :
  let x := {| endIndex := i; rest := ch :: t; captures := caps |} in
  matcher (Star (Class p)) x k
  = if p ch
    then match matcher (Star (Class p))
                 {| endIndex := S i; rest := t; captures := caps |} k with
         | Some z => Some z
         | None => k x
         end
    else k x.
Proof.
  cbn -[Nat.eqb]. unfold CharacterSetMatcher. cbn -[Nat.eqb].
  destruct (p ch); [|reflexivity].
  assert (Hne : (S i =? i)%nat = false) by (apply Nat.eqb_neq; lia).
  rewrite Hne. reflexivity.
Qed.

(** Before a continuation that cannot fail, the repetition takes the
    longest run of the class. *)
Lemma star_class_greedy (k : MatcherContinuation) (t : jsstring) :
  (forall y, k y <> None) ->
  forall i caps,
    matcher (Star (Class p)) {| endIndex := i; rest := t; captures := caps |} k
    = k {| endIndex := i + length (fst (span p t));
           rest := snd (span p t); captures := caps |}.
Proof.
  intros Hk. induction t as [|ch t IH]; intros i caps.
  - rewrite star_class_nil. simpl. now rewrite Nat.add_0_r.
  - rewrite star_class_cons. cbv zeta. simpl span.
    destruct (p ch).
    + rewrite IH. destruct (span p t) as [a b]. simpl.
      rewrite <- Nat.add_succ_comm. simpl.
      destruct (k _) eqn:E; [reflexivity|]. now apply Hk in E.
    + simpl. now rewrite Nat.add_0_r.
Qed.

(** Before a continuation that only succeeds at the end of the input
    (an end-of-input assertion), the repetition succeeds exactly when the
    whole remaining input is in the class. *)
Lemma star_class_to_end (k : MatcherContinuation) (t : jsstring) :
  (forall y, rest y <> [] -> k y = None) ->
  forall i caps,
    matcher (Star (Class p)) {| endIndex := i; rest := t; captures := caps |} k
    = if forallb p t
      then k {| endIndex := i + length t; rest := []; captures := caps |}
      else None.
Proof.
  intros Hk. induction t as [|ch t IH]; intros i caps.
  - rewrite star_class_nil. simpl. now rewrite Nat.add_0_r.
  - rewrite star_class_cons. cbv zeta. cbn [forallb].
    destruct (p ch); cbn [andb].
    + rewrite IH. destruct (forallb p t).
      * cbn [length]. rewrite Nat.add_succ_r.
        destruct (k _) eqn:E; [reflexivity|].
        now apply Hk.
      * now apply Hk.
    + now apply Hk.
Qed.

End Matching.

Section Patterns.

Lemma hash_not_word : isWordChar HASH = false.
Proof. reflexivity. Qed.

Lemma firstn_length_app (A : Type) (a b : list A) :
  firstn (length a) (a ++ b) = a.
Proof.
  rewrite firstn_app, Nat.sub_diag, firstn_all. simpl. apply app_nil_r.
Qed.

(** The search-token pattern at one index: a hash, then word characters
    up to the end of the input, which group 1 captures. *)
Lemma search_token_at (i : nat) (s : jsstring) :
  matcher re_search_token {| endIndex := i; rest := s; captures := [] |} Some
  = match s with
    | c :: t =>
        if (HASH =? c)%N && forallb isWordChar t
        then Some {| endIndex := S i + length t; rest := [];
                     captures := [(1, t)] |}
        else None
    | [] => None
    end.
Proof.
  destruct s as [|c t]; [reflexivity|].
  unfold re_search_token.
  rewrite matcher_seq, matcher_char. unfold CharacterSetMatcher.
  cbn [rest endIndex captures].
  destruct (HASH =? c)%N; [|reflexivity]. cbn [andb].
  rewrite matcher_seq, matcher_group, star_class_to_end.
  - destruct (forallb isWordChar t); [|reflexivity].
    rewrite matcher_end. cbn [endIndex rest captures].
    replace (S i + length t - S i) with (length t) by lia.
    now rewrite firstn_all.
  - intros y Hy. rewrite matcher_end. cbn [endIndex rest captures].
    destruct (rest y); [congruence|reflexivity].
Qed.

(** The same for the pattern of [handleTemplateSelect], without group. *)
Lemma trailing_token_at (i : nat) (s : jsstring) :
  matcher re_trailing_token {| endIndex := i; rest := s; captures := [] |} Some
  = match s with
    | c :: t =>
        if (HASH =? c)%N && forallb isWordChar t
        then Some {| endIndex := S i + length t; rest := [];
                     captures := [] |}
        else None
    | [] => None
    end.
Proof.
  destruct s as [|c t]; [reflexivity|].
  unfold re_trailing_token.
  rewrite matcher_seq, matcher_char. unfold CharacterSetMatcher.
  cbn [rest endIndex captures].
  destruct (HASH =? c)%N; [|reflexivity]. cbn [andb].
  rewrite matcher_seq, star_class_to_end.
  - now destruct (forallb isWordChar t).
  - intros y Hy. rewrite matcher_end.
    destruct (rest y); [congruence|reflexivity].
Qed.

(** The template-id pattern at one index: a hash, then the longest run
    of digits, which must not be empty and which group 1 captures. *)
Lemma template_id_at (i : nat) (s : jsstring) :
  matcher re_template_id {| endIndex := i; rest := s; captures := [] |} Some
  = match s with
    | c :: t =>
        if (HASH =? c)%N
        then match fst (span isDigit t) with
             | [] => None
             | d :: ds =>
                 Some {| endIndex := S i + length (d :: ds);
                         rest := snd (span isDigit t);
                         captures := [(1, d :: ds)] |}
             end
        else None
    | [] => None
    end.
Proof.
  destruct s as [|c t]; [reflexivity|].
  unfold re_template_id, Plus.
  rewrite matcher_seq, matcher_char. unfold CharacterSetMatcher.
  cbn [rest endIndex captures].
  destruct (HASH =? c)%N; [|reflexivity].
  rewrite matcher_group, matcher_seq, matcher_class.
  unfold CharacterSetMatcher. cbn [rest endIndex captures].
  destruct t as [|d t]; [reflexivity|].
  cbn [span]. destruct (isDigit d); [|reflexivity].
  rewrite star_class_greedy by discriminate.
  cbn [endIndex rest captures].
  pose proof (span_app isDigit t) as Happ.
  destruct (span isDigit t) as [a b]. cbn [fst snd length] in *.
  replace (S (S i) + length a - S i) with (S (length a)) by lia.
  cbn [firstn]. rewrite <- Happ at 1. rewrite firstn_length_app.
  now rewrite Nat.add_succ_r.
Qed.

End Patterns.

Section Searching.

Lemma search_eq (r : Pattern) (i : nat) (s : jsstring) :
  search r i s
  = match matcher r {| endIndex := i; rest := s; captures := [] |} Some with
    | Some y =>
        Some {| index := i; matched := firstn (endIndex y - i) s;
                groups := captures y; lastIndex := endIndex y |}
    | None =>
        match s with
        | [] => None
        | _ :: t => search r (S i) t
        end
    end.
Proof. destruct s; reflexivity. Qed.

Lemma exec_from_start (r : Pattern) (s : jsstring) :
  exec r s 0 = search r 0 s.
Proof. reflexivity. Qed.

Lemma exec_inside (r : Pattern) (s : jsstring) (i : nat) :
  i <= length s -> exec r s i = search r i (skipn i s).
Proof.
  intros Hi. unfold exec.
  assert (H : (length s <? i) = false) by (apply Nat.ltb_ge; lia).
  now rewrite H.
Qed.

Lemma forallb_word_hash (a t : jsstring) :
  forallb isWordChar (a ++ HASH :: t) = false.
Proof.
  rewrite forallb_app. cbn [forallb]. rewrite hash_not_word.
  cbn [andb]. apply andb_false_r.
Qed.

(** Both token patterns behave alike at one index; the search lemmas are
    proved once for any such pattern. *)
Variable r : Pattern.
Variable caps_of : jsstring -> list (nat * jsstring).
Hypothesis r_at : forall i s,
  matcher r {| endIndex := i; rest := s; captures := [] |} Some
  = match s with
    | c :: t =>
        if (HASH =? c)%N && forallb isWordChar t
        then Some {| endIndex := S i + length t; rest := [];
                     captures := caps_of t |}
        else None
    | [] => None
    end.

(** A text that ends in a hash and word characters is matched there: no
    earlier hash can match, since the later hash is not a word character. *)
Lemma search_token_found (before token : jsstring) (i : nat) :
  forallb isWordChar token = true ->
  search r i (before ++ HASH :: token)
  = Some {| index := i + length before; matched := HASH :: token;
            groups := caps_of token;
            lastIndex := i + length before + S (length token) |}.
Proof.
  intros Hw. revert i. induction before as [|c pre IH]; intros i.
  - rewrite search_eq, r_at. cbn [app]. rewrite N.eqb_refl, Hw.
    cbn [andb endIndex captures length].
    replace (S i + length token - i) with (S (length token)) by lia.
    cbn [firstn]. rewrite firstn_all.
    do 2 f_equal; lia.
  - rewrite search_eq, r_at. cbn [app].
    rewrite forallb_word_hash, andb_false_r, IH. cbn [length].
    do 2 f_equal; lia.
Qed.

(** Conversely a match shows that the text ends in a hash and word
    characters. *)
Lemma search_token_inv (s : jsstring) :
  forall i m, search r i s = Some m -> exists t, ends_with_token s t.
Proof.
  induction s as [|c t IH]; intros i m; rewrite search_eq, r_at.
  - discriminate.
  - destruct ((HASH =? c)%N && forallb isWordChar t) eqn:E.
    + intros _. apply andb_true_iff in E as [Hc Ht].
      apply N.eqb_eq in Hc. subst c.
      exists t, []. now split.
    + intros H. destruct (IH _ _ H) as [tok [pre [Heq Hw]]].
      exists tok, (c :: pre). split; [|assumption].
      cbn [app]. now rewrite Heq.
Qed.

Lemma search_token_none (s : jsstring) (i : nat) :
  (forall t, ~ ends_with_token s t) -> search r i s = None.
Proof.
  intros Hn. destruct (search r i s) as [m|] eqn:E; [|reflexivity].
  destruct (search_token_inv _ _ E) as [t Ht]. now apply Hn in Ht.
Qed.

End Searching.

Section Replacing.

(** A replacement string without a dollar sign is inserted as it is. *)
Lemma GetSubstitution_plain (matched before after : jsstring)
    (caps : list (nat * jsstring)) (m : nat) (template : jsstring) :
  forallb (fun c => negb (c =? DOLLAR)%N) template = true ->
  GetSubstitution matched before after caps m template = template.
Proof.
  induction template as [|c t IH]; [reflexivity|].
  cbn [forallb]. intros H. apply andb_true_iff in H as [Hc Ht].
  cbn [GetSubstitution]. rewrite Hc. now rewrite (IH Ht).
Qed.

Lemma uint_no_dollar (d : Decimal.uint) :
  forallb (fun c => negb (c =? DOLLAR)%N) (js (NilEmpty.string_of_uint d))
  = true.
Proof. induction d; cbn; auto. Qed.

(** The decimal numeral of an integer has no dollar sign. *)
Lemma Number_toString_no_dollar (n : Z) :
  forallb (fun c => negb (c =? DOLLAR)%N) (Number_toString n) = true.
Proof.
  unfold Number_toString, NilZero.string_of_int.
  destruct (Z.to_int n) as [d|d].
  - unfold NilZero.string_of_uint.
    destruct d; try apply uint_no_dollar; reflexivity.
  - unfold NilZero.string_of_uint.
    destruct d; try reflexivity;
      change (js (String "-" ?s)) with (MINUS_SIGN :: js s);
      cbn [forallb]; rewrite uint_no_dollar; reflexivity.
Qed.

(** Replacing the trailing token: the span from the last hash on is
    replaced when the text ends in a hash and word characters, and the
    text is returned unchanged otherwise. *)
Lemma replace_trailing_token (before token replacement : jsstring) :
  forallb isWordChar token = true ->
  forallb (fun c => negb (c =? DOLLAR)%N) replacement = true ->
  String_replace (before ++ HASH :: token) re_trailing_token 0 replacement
  = before ++ replacement.
Proof.
  intros Hw Hr. unfold String_replace.
  rewrite exec_from_start.
  rewrite (@search_token_found re_trailing_token (fun _ => [])
             trailing_token_at before token 0 Hw).
  cbn [index lastIndex matched groups Nat.add].
  rewrite firstn_length_app.
  rewrite GetSubstitution_plain by assumption.
  rewrite skipn_all2 by (rewrite length_app; cbn [length]; lia).
  now rewrite app_nil_r.
Qed.

Lemma replace_no_token (text replacement : jsstring) :
  (forall t, ~ ends_with_token text t) ->
  String_replace text re_trailing_token 0 replacement = text.
Proof.
  intros Hn. unfold String_replace.
  rewrite exec_from_start.
  now rewrite (@search_token_none re_trailing_token (fun _ => [])
                 trailing_token_at text 0 Hn).
Qed.

End Replacing.

Section TemplateIds.

Lemma isDigit_cases (c : N) :
  isDigit c = true ->
  In c [48; 49; 50; 51; 52; 53; 54; 55; 56; 57]%N.
Proof.
  unfold isDigit. intros H. apply andb_true_iff in H as [Hlo Hhi].
  apply N.leb_le in Hlo, Hhi. cbn [In]. lia.
Qed.

Lemma digit_not_hash (c : N) : isDigit c = true -> (c =? HASH)%N = false.
Proof.
  intros H. destruct (N.eqb_spec c HASH) as [->|]; [discriminate|reflexivity].
Qed.

Lemma isRadixDigit_10 (c : N) : isRadixDigit 10 c = isDigit c.
Proof. unfold isRadixDigit, digit_value. now destruct (isDigit c). Qed.

Lemma forallb_radix_10 (s : jsstring) :
  forallb (isRadixDigit 10) s = forallb isDigit s.
Proof.
  induction s as [|c t IH]; [reflexivity|].
  cbn [forallb]. now rewrite isRadixDigit_10, IH.
Qed.

(** On a run of decimal digits [parseInt] skips nothing, sees no sign and
    no hexadecimal prefix, and reads the whole run in radix 10. *)
Lemma parseInt_digits (d : N) (ds : jsstring) :
  forallb isDigit (d :: ds) = true ->
  parseInt (d :: ds) = numeric_value (d :: ds).
Proof.
  intros Hall.
  assert (Hspan : span (isRadixDigit 10) (d :: ds) = (d :: ds, [])).
  { apply span_all. now rewrite forallb_radix_10. }
  cbn [forallb] in Hall. apply andb_true_iff in Hall as [Hd Hds].
  assert (Hhead : isWhiteSpace d = false /\ (d =? MINUS_SIGN)%N = false
                  /\ (d =? PLUS_SIGN)%N = false).
  { apply isDigit_cases in Hd. cbn [In] in Hd.
    repeat (destruct Hd as [<-|Hd]; [repeat split; reflexivity|]).
    contradiction. }
  destruct Hhead as (Hws & Hminus & Hplus).
  unfold parseInt. cbn [trimStart]. rewrite Hws, Hminus, Hplus.
  destruct ds as [|c1 t].
  - cbv zeta iota beta. now rewrite Hspan.
  - cbn [forallb] in Hds. apply andb_true_iff in Hds as [Hc1 _].
    assert (Hx : ((c1 =? 120)%N || (c1 =? 88)%N) = false).
    { apply isDigit_cases in Hc1. cbn [In] in Hc1.
      repeat (destruct Hc1 as [<-|Hc1]; [reflexivity|]).
      contradiction. }
    rewrite Hx, andb_false_r. cbv zeta iota beta. now rewrite Hspan.
Qed.

Lemma references_skip_digits (d t : jsstring) :
  forallb isDigit d = true ->
  template_references (d ++ t) = template_references t.
Proof.
  induction d as [|c d IH]; [reflexivity|].
  cbn [forallb app]. intros H. apply andb_true_iff in H as [Hc Hd].
  cbn [template_references]. rewrite (digit_not_hash _ Hc). now apply IH.
Qed.

(** Every reference is a non-empty run of digits. *)
Lemma references_are_digits (s : jsstring) :
  Forall (fun d => d <> [] /\ forallb isDigit d = true)
    (template_references s).
Proof.
  induction s as [|c t IH]; cbn [template_references]; [constructor|].
  destruct (c =? HASH)%N; [|assumption].
  pose proof (span_forallb isDigit t) as Hd.
  destruct (fst (span isDigit t)) as [|d ds]; [assumption|].
  constructor; [|assumption]. split; [discriminate|assumption].
Qed.

(** One search for the template-id pattern finds the first reference of
    the input, if there is one, and stops right after its digits. *)
Lemma search_template_id (s : jsstring) :
  forall i,
    match search re_template_id i s with
    | None => template_references s = []
    | Some m =>
        exists n d,
          0 < n <= length s /\ lastIndex m = i + n
          /\ capture m 1 = Some d /\ matched m <> []
          /\ template_references s = d :: template_references (skipn n s)
    end.
Proof.
  induction s as [|c t IH]; intros i; rewrite search_eq, template_id_at.
  - reflexivity.
  - cbn [template_references]. rewrite (N.eqb_sym c HASH).
    pose proof (span_app isDigit t) as Happ.
    pose proof (span_forallb isDigit t) as Hdig.
    destruct (span isDigit t) as [run b]. cbn [fst snd] in *.
    destruct (HASH =? c)%N.
    + destruct run as [|d ds].
      * specialize (IH (S i)). destruct (search re_template_id (S i) t).
        -- destruct IH as (n & d & Hn & Hlast & Hcap & Hm & Hrefs).
           exists (S n), d. cbn [length skipn].
           repeat split; try assumption; lia.
        -- assumption.
      * exists (S (length (d :: ds))), (d :: ds).
        cbn [lastIndex matched endIndex captures].
        assert (Hlen : length (d :: ds) <= length t)
          by (rewrite <- Happ, length_app; lia).
        repeat split.
        -- lia.
        -- cbn [length] in *. lia.
        -- lia.
        -- replace (S i + length (d :: ds) - i) with (S (length (d :: ds)))
             by lia.
           discriminate.
        -- f_equal. change (skipn (S ?k) (c :: ?l)) with (skipn k l).
           assert (Hskip : skipn (length (d :: ds)) t = b).
           { rewrite <- Happ, skipn_app, skipn_all, Nat.sub_diag.
             reflexivity. }
           rewrite Hskip, <- Happ. now apply references_skip_digits.
    + specialize (IH (S i)). destruct (search re_template_id (S i) t).
      * destruct IH as (n & d & Hn & Hlast & Hcap & Hm & Hrefs).
        exists (S n), d. cbn [length skipn].
        repeat split; try assumption; lia.
      * assumption.
Qed.

(** The scan started at [i] collects the references of the input from [i]
    on; the fuel given by [String_matchAll] is never exhausted. *)
Lemma matchAll_template_ids (s : jsstring) (fuel : nat) :
  forall i,
    i <= length s -> length s - i < fuel ->
    map (fun m => capture m 1) (matchAll_from fuel re_template_id s i)
    = map Some (template_references (skipn i s)).
Proof.
  induction fuel as [|fuel IH]; intros i Hi Hfuel; [lia|].
  cbn [matchAll_from]. rewrite exec_inside by assumption.
  pose proof (search_template_id (skipn i s) i) as Hs.
  destruct (search re_template_id i (skipn i s)) as [m|].
  - destruct Hs as (n & d & Hn & Hlast & Hcap & Hm & Hrefs).
    rewrite length_skipn in Hn.
    destruct (matched m) as [|c0 m0]; [congruence|].
    cbn [map]. rewrite Hcap, Hrefs, Hlast. cbn [map]. f_equal.
    rewrite IH by lia. now rewrite skipn_skipn, (Nat.add_comm n i).
  - now rewrite Hs.
Qed.

End TemplateIds.

(* ================================================================= *)
(** ** Template references: extraction, autocomplete, selection *)

Section References.

Lemma numeric_value_exact (d : jsstring) :
  (math_value 10 d < 2 ^ 53)%Z ->
  numeric_value d = Finite (math_value 10 d).
Proof.
  intros H. unfold numeric_value, to_number, nearest_double.
  apply Z.ltb_lt in H. now rewrite H.
Qed.

(** C3.  [extractTemplateIds] returns, for every occurrence in the content
    of a hash followed by one or more digits, the numeric value of those
    digits (the Number that [parseInt] reads from them), in order of
    occurrence: nothing is dropped, deduplicated or range-checked.  In
    particular the content "see #1 and #23 and #1" yields [1, 23, 1]. *)
Theorem extractTemplateIds_all_references :
  (forall st : State,
     extractTemplateIds st
     = map numeric_value (template_references (content st)))
  /\ (forall st : State,
        content st = js "see #1 and #23 and #1" ->
        extractTemplateIds st = [Finite 1; Finite 23; Finite 1]).
Proof.
  assert (Hgen : forall st : State,
            extractTemplateIds st
            = map numeric_value (template_references (content st))).
  { intros st. unfold extractTemplateIds, String_matchAll.
    rewrite <- (map_map (fun m => capture m 1)
                  (fun o => parseInt match o with
                                     | Some s => s
                                     | None => js "undefined"
                                     end)).
    rewrite matchAll_template_ids by lia.
    cbn [skipn]. rewrite map_map. apply map_ext_in.
    intros d Hd.
    pose proof (references_are_digits (content st)) as Hall.
    rewrite Forall_forall in Hall. destruct (Hall d Hd) as [Hne Hdig].
    destruct d as [|c ds]; [congruence|]. now apply parseInt_digits. }
  split; [exact Hgen|].
  intros st Hc. rewrite Hgen, Hc. reflexivity.
Qed.

Lemma extractTemplateIds_witness :
  extractTemplateIds (draft "see #1 and #23 and #1" 0 false [])
  = [Finite 1; Finite 23; Finite 1].
Proof.
  apply (proj2 extractTemplateIds_all_references). reflexivity.
Defined.

(** C4.  [handleTemplateSelect] splits the content at the caret offset.
    When the text before the caret ends in a hash followed by word
    characters, that span is replaced by a hash and the decimal numeral of
    the selected template's id, an integer of magnitude below 2^53; the
    text from the caret on is appended unchanged, and the popup is
    closed.  (Without such a span before the caret the content stays as
    it is.) *)
Theorem handleTemplateSelect_replaces_token :
  forall (ls : Storage) (st : State) (template : Template) (cfg : Config),
    let before := firstn (cursorPosition st) (content st) in
    let after := skipn (cursorPosition st) (content st) in
    let r := run ls (handleTemplateSelect st template) cfg in
    fst r = Finished Normal
    /\ showTemplatePopup (state (snd r)) = false
    /\ (forall pre token,
          before = pre ++ HASH :: token ->
          forallb isWordChar token = true ->
          (Z.abs (template_id template) < 2 ^ 53)%Z ->
          content (state (snd r))
          = pre ++ HASH :: Number_toString (template_id template) ++ after)
    /\ ((forall token, ~ ends_with_token before token) ->
        content (state (snd r)) = content st).
Proof.
  intros ls st template cfg before after r.
  subst r. unfold handleTemplateSelect.
  rewrite slice_prefix, slice_suffix. fold before after.
  cbn [run function_body seq setContent setShowTemplatePopup fst snd state
       content showTemplatePopup].
  repeat split.
  - intros pre token Hbefore Hword Hid. rewrite Hbefore.
    rewrite replace_trailing_token.
    + now rewrite <- app_assoc.
    + assumption.
    + cbn [forallb]. now rewrite Number_toString_no_dollar.
  - intros Hnone. rewrite replace_no_token by assumption.
    apply firstn_skipn.
Qed.

Lemma handleTemplateSelect_witness :
  let st := draft "hello #fo bar" 9 true [] in
  let template := {| template_id := 42; template_title := js "fold" |} in
  content
    (state (snd (run (fun _ => None) (handleTemplateSelect st template)
                   (start st))))
  = js "hello #42 bar".
Proof.
  intros st template.
  apply (proj1 (proj2 (proj2
           (handleTemplateSelect_replaces_token (fun _ => None) st template
              (start st))))
           (js "hello ") (js "fo")); reflexivity.
Defined.

(** C9.  A template selection writes the content and the popup flag only:
    every other cell of the state keeps its value, and nothing is sent,
    logged or scheduled. *)
Theorem handleTemplateSelect_frame :
  forall (ls : Storage) (st : State) (template : Template) (cfg : Config),
    let st' := state (snd (run ls (handleTemplateSelect st template) cfg)) in
    title st' = title (state cfg)
    /\ description st' = description (state cfg)
    /\ tag st' = tag (state cfg)
    /\ error st' = error (state cfg)
    /\ success st' = success (state cfg)
    /\ loading st' = loading (state cfg)
    /\ matchingTemplates st' = matchingTemplates (state cfg)
    /\ cursorPosition st' = cursorPosition (state cfg)
    /\ initialLoading st' = initialLoading (state cfg)
    /\ trace (snd (run ls (handleTemplateSelect st template) cfg))
       = trace cfg.
Proof.
  intros ls st template cfg. cbv zeta. unfold handleTemplateSelect.
  cbn [run function_body seq setContent setShowTemplatePopup fst snd state
       trace title description tag error success loading matchingTemplates
       cursorPosition initialLoading].
  repeat split.
Qed.

End References.

Section Autocomplete.

(** The token that ends a text is the one the search captures: it is
    unique, and a text on which the search fails ends in none. *)
Lemma ends_with_token_search (text token : jsstring) :
  ends_with_token text token ->
  search re_search_token 0 text
  = Some {| index := length text - S (length token);
            matched := HASH :: token;
            groups := [(1, token)];
            lastIndex := length text |}.
Proof.
  intros (pre & Heq & Hw). rewrite Heq.
  rewrite (@search_token_found re_search_token (fun t => [(1, t)])
             search_token_at pre token 0 Hw).
  rewrite length_app. cbn [length Nat.add].
  do 2 f_equal; lia.
Qed.

(** A text ends in a hash and a non-empty token, or in a bare hash, or in
    neither. *)
Lemma ends_with_token_cases (text : jsstring) :
  (exists token, ends_with_token text token /\ token <> [])
  \/ ends_with_token text []
  \/ (forall token, ~ ends_with_token text token).
Proof.
  destruct (search re_search_token 0 text) as [m|] eqn:E.
  - destruct (@search_token_inv re_search_token (fun t => [(1, t)])
                search_token_at text 0 m E) as [[|c t] Ht].
    + right. now left.
    + left. exists (c :: t). now split.
  - right. right. intros token Ht.
    apply ends_with_token_search in Ht. congruence.
Qed.

(** C1 (amended).  [handleContentChange] looks at the text before the
    caret, which ends in a hash and a non-empty token, or in a bare hash,
    or in neither.  If it ends in a hash followed by a non-empty run of
    word characters, a template search for that run is issued and the
    popup is shown.  If it ends in a bare hash, no search is issued and
    the popup flag keeps the value it had.  In every other case no search
    is issued and the popup is hidden.  The content and the caret offset
    are stored in all cases. *)
Theorem handleContentChange_autocomplete :
  forall (ls : Storage) (e : ChangeEvent) (cfg : Config),
    let text := firstn (selectionStart e) (value e) in
    let r := run ls (handleContentChange e) cfg in
    ((exists token, ends_with_token text token /\ token <> [])
     \/ ends_with_token text []
     \/ (forall token, ~ ends_with_token text token))
    /\ (forall token,
          ends_with_token text token -> token <> [] ->
          trace (snd r) = trace cfg ++ [Issued (search_request token)]
          /\ showTemplatePopup (state (snd r)) = true)
    /\ (ends_with_token text [] ->
        trace (snd r) = trace cfg
        /\ showTemplatePopup (state (snd r))
           = showTemplatePopup (state cfg))
    /\ ((forall token, ~ ends_with_token text token) ->
        trace (snd r) = trace cfg
        /\ showTemplatePopup (state (snd r)) = false)
    /\ content (state (snd r)) = value e
    /\ cursorPosition (state (snd r)) = selectionStart e.
Proof.
  intros ls e cfg text r. subst r.
  split; [apply ends_with_token_cases|].
  unfold handleContentChange.
  cbv zeta. rewrite slice_prefix. fold text.
  unfold String_match. rewrite exec_from_start.
  split; [|split; [|split]].
  - intros token Hends Hne.
    rewrite (ends_with_token_search Hends).
    destruct token as [|c t]; [congruence|]. split; reflexivity.
  - intros Hends. rewrite (ends_with_token_search Hends).
    split; reflexivity.
  - intros Hnone.
    rewrite (@search_token_none re_search_token (fun t => [(1, t)])
               search_token_at text 0 Hnone).
    split; reflexivity.
  - destruct (search re_search_token 0 text) as [m|]; [|split; reflexivity].
    cbn [capture]. destruct (0 <? length _); split; reflexivity.
Qed.

Lemma handleContentChange_witness :
  let ls : Storage := fun _ => None in
  let typed (s : string) (caret : nat) :=
    snd (run ls (handleContentChange
                   {| value := js s; selectionStart := caret |})
           (start (draft "hello" 5 false []))) in
  (trace (typed "hello #fo"%string 9) = [Issued (search_request (js "fo"))]
   /\ showTemplatePopup (state (typed "hello #fo"%string 9)) = true)
  /\ (trace (typed "hello #"%string 7) = []
      /\ showTemplatePopup (state (typed "hello #"%string 7)) = false)
  /\ (trace (typed "hello # "%string 8) = []
      /\ showTemplatePopup (state (typed "hello # "%string 8)) = false).
Proof.
  intros ls typed. split; [|split].
  - apply (proj1 (proj2 (handleContentChange_autocomplete ls
                    {| value := js "hello #fo"; selectionStart := 9 |}
                    (start (draft "hello" 5 false [])))) (js "fo")).
    + exists (js "hello "). split; reflexivity.
    + discriminate.
  - apply (proj1 (proj2 (proj2 (handleContentChange_autocomplete ls
                    {| value := js "hello #"; selectionStart := 7 |}
                    (start (draft "hello" 5 false [])))))).
    exists (js "hello "). split; reflexivity.
  - apply (proj1 (proj2 (proj2 (proj2 (handleContentChange_autocomplete ls
                    {| value := js "hello # "; selectionStart := 8 |}
                    (start (draft "hello" 5 false []))))))).
    intros token H. apply ends_with_token_search in H. discriminate H.
Defined.

(** C1 as stated fails on a bare hash.  The user has typed "hello #f",
    the popup is open, and deletes the "f": the text before the caret ends
    in no non-empty token and no search is issued, yet the popup stays
    open. *)
Lemma handleContentChange_bare_hash_keeps_popup :
  let matches := [{| template_id := 7; template_title := js "fold" |}] in
  let e := {| value := js "hello #"; selectionStart := 7 |} in
  let r := run (fun _ => None) (handleContentChange e)
             (start (draft "hello #f" 8 true matches)) in
  (forall token,
     ends_with_token (firstn (selectionStart e) (value e)) token ->
     token = [])
  /\ trace (snd r) = []
  /\ showTemplatePopup (state (snd r)) = true.
Proof.
  cbv zeta. split; [|split; reflexivity].
  intros token H. apply ends_with_token_search in H.
  vm_compute in H. congruence.
Qed.

End Autocomplete.

(* ================================================================= *)
(** ** Loading and updating the post *)

Section Requests.

Ltac run_handler :=
  cbn -[js extractTemplateIds query_toString or_else Z.eqb].

(** C7 (amended).  [handleTemplateSearch] sends its request without
    touching the state.  When the request fails, it logs the failure and
    changes no cell of the state: the error message is not set, and the
    list of matching templates is left as it was, both with respect to
    the state at the moment of the failure and, if nothing else happened
    in between, with respect to the state before the request. *)
Theorem handleTemplateSearch_failure_is_silent :
  forall (ls : Storage) (searchText : jsstring) (cfg : Config),
    let p := run ls (handleTemplateSearch searchText) cfg in
    awaited (fst p) = Some (search_request searchText)
    /\ snd p
       = {| state := state cfg;
            trace := trace cfg ++ [Issued (search_request searchText)];
            waiting := waiting cfg |}
    /\ (forall (ls' : Storage) (err : Error) (cfg' : Config),
          resume ls' (fst p) (Rejected err) cfg'
          = (Finished Normal,
             {| state := state cfg';
                trace := trace cfg'
                         ++ [ConsoleError (js "Failed to fetch templates:")
                               err];
                waiting := waiting cfg' |}))
    /\ (forall (ls' : Storage) (err : Error),
          let q := resume ls' (fst p) (Rejected err) (snd p) in
          fst q = Finished Normal
          /\ state (snd q) = state cfg
          /\ error (state (snd q)) = error (state cfg)
          /\ matchingTemplates (state (snd q))
             = matchingTemplates (state cfg)
          /\ trace (snd q)
             = trace cfg
               ++ [Issued (search_request searchText);
                   ConsoleError (js "Failed to fetch templates:") err]).
Proof.
  intros ls searchText cfg. cbv zeta.
  split; [reflexivity|]. split; [reflexivity|]. split.
  - intros ls' err cfg'. reflexivity.
  - intros ls' err.
    cbn [run resume handleTemplateSearch function_body try_catch
         await_axios fst snd state trace console_error].
    rewrite <- app_assoc. repeat split.
Qed.

(** C7 as stated fails when an earlier search has filled the list: after
    the failed request the list still holds the earlier matches. *)
Lemma handleTemplateSearch_failure_keeps_matches :
  let earlier := [{| template_id := 7; template_title := js "fold" |}] in
  let ls : Storage := fun _ => None in
  let p := run ls (handleTemplateSearch (js "fo"))
             (start (draft "hello #fo" 9 true earlier)) in
  let q := resume ls (fst p) (Rejected (AxiosError None)) (snd p) in
  fst q = Finished Normal
  /\ error (state (snd q)) = None
  /\ matchingTemplates (state (snd q)) = earlier
  /\ matchingTemplates (state (snd q)) <> [].
Proof. cbv zeta. repeat split. discriminate. Qed.

(** C6.  With an identifier in the route and no bearer token in local
    storage, the loader sets the authentication error and ends: no request
    is issued and the four editable fields keep their values, which are
    empty when the page has just been mounted. *)
Theorem fetchBlogPost_requires_token :
  forall (ls : Storage) (id : QueryValue) (cfg : Config),
    truthy_query id = true ->
    ls (js "accessToken") = None ->
    let r := run ls (fetchBlogPost id) cfg in
    fst r = Finished Normal
    /\ error (state (snd r))
       = Some (js "You need to be logged in to edit posts")
    /\ requests (trace (snd r)) = requests (trace cfg)
    /\ trace (snd r) = trace cfg
    /\ waiting (snd r) = waiting cfg
    /\ title (state (snd r)) = title (state cfg)
    /\ description (state (snd r)) = description (state cfg)
    /\ content (state (snd r)) = content (state cfg)
    /\ tag (state (snd r)) = tag (state cfg)
    /\ (state cfg = initialState ->
        title (state (snd r)) = [] /\ description (state (snd r)) = []
        /\ content (state (snd r)) = [] /\ tag (state (snd r)) = []).
Proof.
  intros ls id cfg Hid Htoken r. subst r.
  unfold fetchBlogPost. rewrite Hid. run_handler. rewrite Htoken.
  run_handler.
  repeat match goal with |- _ /\ _ => split end; try reflexivity.
  intros Hinit. rewrite Hinit. repeat split.
Qed.

Lemma fetchBlogPost_requires_token_witness :
  let r := run (fun _ => None) (fetchBlogPost (QString (js "12")))
             (start initialState) in
  fst r = Finished Normal
  /\ error (state (snd r)) = Some (js "You need to be logged in to edit posts")
  /\ requests (trace (snd r)) = []
  /\ title (state (snd r)) = [].
Proof.
  pose proof (fetchBlogPost_requires_token (fun _ => None)
                (QString (js "12")) (start initialState)
                eq_refl eq_refl) as H.
  cbv zeta in *. repeat split; apply H.
Defined.

(** C8.  With an identifier and a stored bearer token, the loader issues
    the authenticated read request and waits.  When the request succeeds
    with a payload that holds [blogPost], the title, description, content
    and tag are set to the fields of that post. *)
Theorem fetchBlogPost_populates_fields :
  forall (ls : Storage) (id : QueryValue) (token : jsstring) (cfg : Config),
    truthy_query id = true ->
    ls (js "accessToken") = Some token ->
    truthy token = true ->
    let p := run ls (fetchBlogPost id) cfg in
    awaited (fst p) = Some (post_request GET id token None)
    /\ trace (snd p) = trace cfg ++ [Issued (post_request GET id token None)]
    /\ state (snd p) = state cfg
    /\ forall (ls' : Storage) (cfg' : Config) (code : Z) (post : BlogPost)
              (others : option (list Template)),
         let response :=
           {| status := code;
              data := Some {| blogPost := Some post;
                              codeTemplates := others |} |} in
         let q := resume ls' (fst p) (Resolved response) cfg' in
         fst q = Finished Normal
         /\ title (state (snd q)) = post_title post
         /\ description (state (snd q)) = post_description post
         /\ content (state (snd q)) = post_content post
         /\ tag (state (snd q)) = post_tag post
         /\ error (state (snd q)) = error (state cfg')
         /\ initialLoading (state (snd q)) = false
         /\ trace (snd q) = trace cfg'.
Proof.
  intros ls id token cfg Hid Htoken Htruthy p. subst p.
  unfold fetchBlogPost. rewrite Hid. run_handler. rewrite Htoken.
  cbn [truthy_opt]. rewrite Htruthy. run_handler.
  repeat split.
Qed.

Lemma fetchBlogPost_populates_fields_witness :
  let ls : Storage := fun _ => Some (js "secret") in
  let post := {| post_id := 12; post_title := js "Folds";
                 post_description := js "On folding lists";
                 post_content := js "see #1"; post_tag := js "fp";
                 post_templates := [] |} in
  let p := run ls (fetchBlogPost (QString (js "12"))) (start initialState) in
  let q := resume ls (fst p)
             (Resolved {| status := 200;
                          data := Some {| blogPost := Some post;
                                          codeTemplates := None |} |})
             (snd p) in
  title (state (snd q)) = js "Folds"
  /\ description (state (snd q)) = js "On folding lists"
  /\ content (state (snd q)) = js "see #1"
  /\ tag (state (snd q)) = js "fp".
Proof.
  intros ls post p q.
  pose proof (fetchBlogPost_populates_fields ls (QString (js "12"))
                (start initialState) eq_refl eq_refl eq_refl) as H.
  destruct H as (_ & _ & _ & H).
  specialize (H ls (snd p) 200%Z post None).
  cbv zeta in H. repeat split; apply H.
Defined.

(** C5.  When one of the four fields is empty, [handleUpdatePost] sets
    the error "All fields are required!" and returns: nothing is sent, and
    no other cell of the state changes. *)
Theorem handleUpdatePost_requires_all_fields :
  forall (ls : Storage) (id : QueryValue) (st : State) (cfg : Config),
    title st = [] \/ description st = [] \/ content st = [] \/ tag st = [] ->
    run ls (handleUpdatePost id st) cfg
    = (Finished Normal,
       {| state := with_error (state cfg)
                     (Some (js "All fields are required!"));
          trace := trace cfg;
          waiting := waiting cfg |}).
Proof.
  intros ls id st cfg Hempty. unfold handleUpdatePost.
  assert (Hcond : negb (truthy (title st)) || negb (truthy (description st))
                  || negb (truthy (content st)) || negb (truthy (tag st))
                  = true).
  { destruct Hempty as [H|[H|[H|H]]]; rewrite H; cbn [truthy negb orb];
      rewrite ?orb_true_r; reflexivity. }
  rewrite Hcond. reflexivity.
Qed.

Lemma handleUpdatePost_requires_all_fields_witness :
  let st := draft EmptyString 0 false [] in
  run (fun _ => Some (js "secret")) (handleUpdatePost (QString (js "12")) st)
    (start st)
  = (Finished Normal,
     start (with_error st (Some (js "All fields are required!")))).
Proof.
  intros st.
  apply (handleUpdatePost_requires_all_fields (fun _ => Some (js "secret"))
           (QString (js "12")) st (start st)).
  right. right. left. reflexivity.
Defined.

(** C10.  With the four fields filled in and no bearer token in local
    storage, [handleUpdatePost] sends nothing and ends with the error "You
    need to log in to update the blog post.", no success message, and the
    loading flag back to false. *)
Theorem handleUpdatePost_requires_token :
  forall (ls : Storage) (id : QueryValue) (st : State) (cfg : Config),
    truthy (title st) = true -> truthy (description st) = true ->
    truthy (content st) = true -> truthy (tag st) = true ->
    ls (js "accessToken") = None ->
    let r := run ls (handleUpdatePost id st) cfg in
    fst r = Finished Normal
    /\ trace (snd r) = trace cfg
    /\ waiting (snd r) = waiting cfg
    /\ error (state (snd r))
       = Some (js "You need to log in to update the blog post.")
    /\ success (state (snd r)) = None
    /\ loading (state (snd r)) = false.
Proof.
  intros ls id st cfg Ht Hd Hc Hg Htoken r. subst r.
  unfold handleUpdatePost. rewrite Ht, Hd, Hc, Hg.
  run_handler. rewrite Htoken. run_handler. repeat split.
Qed.

Lemma handleUpdatePost_requires_token_witness :
  let st := draft "see #1" 6 false [] in
  let r := run (fun _ => None) (handleUpdatePost (QString (js "12")) st)
             (start st) in
  fst r = Finished Normal
  /\ trace (snd r) = []
  /\ error (state (snd r))
     = Some (js "You need to log in to update the blog post.")
  /\ success (state (snd r)) = None
  /\ loading (state (snd r)) = false.
Proof.
  intros st r.
  pose proof (handleUpdatePost_requires_token (fun _ => None)
                (QString (js "12")) st (start st)
                eq_refl eq_refl eq_refl eq_refl eq_refl) as H.
  cbv zeta in H. repeat split; apply H.
Defined.

(** C2 (amended).  With the four fields filled in and a stored bearer
    token, [handleUpdatePost] raises the loading flag, clears both
    messages, sends the authenticated update request with the four fields
    and the extracted template ids, and waits.  Then:
    - if the request resolves with status 200, the success message is set
      and a navigation to the post's page is scheduled after 2000 ms;
    - if the request is rejected (axios rejects on a status outside 2xx
      and when no answer arrives), the error message is set to the
      server-provided error when that is a non-empty string, and to
      "Failed to update blog post." otherwise, and nothing is scheduled;
    - if the request resolves with another status, nothing is scheduled.
    In all three cases the loading flag is lowered. *)
Theorem handleUpdatePost_outcomes :
  forall (ls : Storage) (id : QueryValue) (st : State) (token : jsstring)
         (cfg : Config),
    truthy (title st) = true -> truthy (description st) = true ->
    truthy (content st) = true -> truthy (tag st) = true ->
    ls (js "accessToken") = Some token -> truthy token = true ->
    let request :=
      post_request PUT id token
        (Some {| body_title := title st;
                 body_description := description st;
                 body_content := content st;
                 body_tag := tag st;
                 body_templateIds := extractTemplateIds st |}) in
    let p := run ls (handleUpdatePost id st) cfg in
    awaited (fst p) = Some request
    /\ trace (snd p) = trace cfg ++ [Issued request]
    /\ loading (state (snd p)) = true
    /\ error (state (snd p)) = None
    /\ success (state (snd p)) = None
    /\ forall (ls' : Storage) (cfg' : Config),
         (forall d,
            let q := resume ls' (fst p)
                       (Resolved {| status := 200; data := d |}) cfg' in
            fst q = Finished Normal
            /\ success (state (snd q))
               = Some (js "Blog post updated successfully!")
            /\ error (state (snd q)) = error (state cfg')
            /\ trace (snd q)
               = trace cfg'
                 ++ [SetTimeout
                       (RouterPush (js "/blogposts/" ++ query_toString id))
                       2000]
            /\ loading (state (snd q)) = false)
         /\ (forall err,
               let q := resume ls' (fst p) (Rejected err) cfg' in
               fst q = Finished Normal
               /\ error (state (snd q))
                  = Some (or_else (response_error err)
                            (js "Failed to update blog post."))
               /\ success (state (snd q)) = success (state cfg')
               /\ trace (snd q) = trace cfg'
               /\ loading (state (snd q)) = false)
         /\ (forall response,
               status response <> 200%Z ->
               let q := resume ls' (fst p) (Resolved response) cfg' in
               fst q = Finished Normal
               /\ trace (snd q) = trace cfg'
               /\ loading (state (snd q)) = false).
Proof.
  intros ls id st token cfg Ht Hd Hc Hg Htoken Htruthy request p.
  subst p request.
  unfold handleUpdatePost. rewrite Ht, Hd, Hc, Hg.
  run_handler. rewrite Htoken. cbn [truthy_opt]. rewrite Htruthy.
  run_handler.
  repeat match goal with |- _ /\ _ => split end; try reflexivity.
  intros ls' cfg'.
  repeat match goal with |- _ /\ _ => split end.
  - intros d. run_handler. repeat split.
  - intros err. run_handler. repeat split.
  - intros response Hstatus. run_handler.
    apply Z.eqb_neq in Hstatus. rewrite Hstatus. run_handler.
    repeat split.
Qed.

Lemma handleUpdatePost_outcomes_witness :
  let st := draft "see #1" 6 false [] in
  let ls : Storage := fun _ => Some (js "secret") in
  let p := run ls (handleUpdatePost (QString (js "12")) st) (start st) in
  let ok := resume ls (fst p)
              (Resolved {| status := 200; data := None |}) (snd p) in
  let denied := resume ls (fst p)
                  (Rejected
                     (AxiosError
                        (Some {| error_status := 403;
                                 error_message := Some (js "Forbidden") |})))
                  (snd p) in
  let offline := resume ls (fst p) (Rejected (AxiosError None)) (snd p) in
  (success (state (snd ok)) = Some (js "Blog post updated successfully!")
   /\ timers (trace (snd ok)) = [(RouterPush (js "/blogposts/12"), 2000%Z)])
  /\ (error (state (snd denied)) = Some (js "Forbidden")
      /\ timers (trace (snd denied)) = [])
  /\ (error (state (snd offline)) = Some (js "Failed to update blog post.")
      /\ timers (trace (snd offline)) = []).
Proof.
  intros st ls p ok denied offline.
  pose proof (handleUpdatePost_outcomes ls (QString (js "12")) st
                (start st) eq_refl eq_refl eq_refl eq_refl eq_refl eq_refl)
    as H.
  cbv zeta in H. destruct H as (_ & _ & _ & _ & _ & H).
  destruct (H ls (snd p)) as (Hok & Hrej & _).
  repeat apply conj.
  - apply (Hok None).
  - reflexivity.
  - apply (Hrej (AxiosError (Some {| error_status := 403;
                                   error_message := Some (js "Forbidden") |}))).
  - reflexivity.
  - apply (Hrej (AxiosError None)).
  - reflexivity.
Defined.

(** C2 as stated fails on an answer that is not an error and not a 200.
    axios resolves every status from 200 to 299; on a 204 the handler sets
    neither message, so the error is not the fallback text. *)
Lemma handleUpdatePost_204_sets_no_message :
  let st := draft "see #1" 6 false [] in
  let ls : Storage := fun _ => Some (js "secret") in
  let p := run ls (handleUpdatePost (QString (js "12")) st) (start st) in
  let q := resume ls (fst p)
             (Resolved {| status := 204; data := None |}) (snd p) in
  fst q = Finished Normal
  /\ error (state (snd q)) = None
  /\ error (state (snd q)) <> Some (js "Failed to update blog post.")
  /\ success (state (snd q)) = None.
Proof. cbv zeta. repeat split. discriminate. Qed.

End Requests.

(* ================================================================= *)
(** ** Further properties of the extraction of template ids *)

Section Extraction.

Lemma extractTemplateIds_references (st : State) :
  extractTemplateIds st
  = map numeric_value (template_references (content st)).
Proof.
  unfold extractTemplateIds, String_matchAll.
  rewrite <- (map_map (fun m => capture m 1)
                (fun o => parseInt match o with
                                   | Some s => s
                                   | None => js "undefined"
                                   end)).
  rewrite matchAll_template_ids by lia.
  cbn [skipn]. rewrite map_map. apply map_ext_in.
  intros d Hd.
  pose proof (references_are_digits (content st)) as Hall.
  rewrite Forall_forall in Hall. destruct (Hall d Hd) as [Hne Hdig].
  destruct d as [|c ds]; [congruence|]. now apply parseInt_digits.
Qed.

Lemma ids_in_references (c : jsstring) :
  ids_in c = map numeric_value (template_references c).
Proof. apply extractTemplateIds_references. Qed.

Lemma extractTemplateIds_ids_in (st : State) :
  extractTemplateIds st = ids_in (content st).
Proof. now rewrite extractTemplateIds_references, ids_in_references. Qed.

(** A run of the class stops at the first code unit outside it. *)
Lemma span_stop (p : N -> bool) (a b : jsstring) (x : N) :
  p x = false ->
  span p (a ++ x :: b) = (fst (span p a), snd (span p a) ++ x :: b).
Proof.
  intros Hx. induction a as [|c a IH]; cbn [app span].
  - now rewrite Hx.
  - destruct (p c); [|reflexivity].
    rewrite IH. now destruct (span p a).
Qed.

(** References do not straddle a hash: those of a text that continues
    with a hash are those before the hash, then those from the hash on. *)
Lemma references_app_hash (a b : jsstring) :
  template_references (a ++ HASH :: b)
  = template_references a ++ template_references (HASH :: b).
Proof.
  induction a as [|c a IH]; [reflexivity|].
  cbn [app]. cbn [template_references] in *.
  rewrite (@span_stop isDigit a b HASH) by reflexivity.
  cbn [fst]. rewrite IH.
  destruct (c =? HASH)%N; [|reflexivity].
  now destruct (fst (span isDigit a)).
Qed.

Lemma references_count (s : jsstring) :
  length (template_references s) <= count_occ N.eq_dec s HASH.
Proof.
  induction s as [|c t IH]; [reflexivity|].
  cbn [template_references count_occ].
  destruct (N.eqb_spec c HASH) as [->|Hne].
  - destruct (N.eq_dec HASH HASH); [|congruence].
    destruct (fst (span isDigit t)); cbn [length]; lia.
  - destruct (N.eq_dec c HASH); [congruence|assumption].
Qed.

(** The value of a run of digits read from an accumulator. *)
Lemma digits_fold_bounds (d : jsstring) :
  forallb isDigit d = true ->
  forall acc : Z,
    (0 <= acc)%Z ->
    let v := fold_left
               (fun a c => match digit_value 10 c with
                           | Some x => 10 * a + x
                           | None => a
                           end)%Z d acc in
    (0 <= v < (acc + 1) * 10 ^ Z.of_nat (length d))%Z.
Proof.
  induction d as [|c d IH]; intros Hd acc Hacc; cbn [fold_left length].
  - cbv zeta. rewrite Z.pow_0_r. lia.
  - cbn [forallb] in Hd. apply andb_true_iff in Hd as [Hc Hd].
    assert (Hdv : digit_value 10 c = Some (Z.of_N c - 48)%Z)
      by (unfold digit_value; now rewrite Hc).
    rewrite Hdv.
    assert (Hrange : (48 <= Z.of_N c <= 57)%Z).
    { unfold isDigit in Hc. apply andb_true_iff in Hc as [H1 H2].
      apply N.leb_le in H1, H2. lia. }
    specialize (IH Hd (10 * acc + (Z.of_N c - 48))%Z ltac:(lia)).
    cbv zeta in *. rewrite Nat2Z.inj_succ, Z.pow_succ_r by lia.
    assert (Hpow : (0 < 10 ^ Z.of_nat (length d))%Z)
      by (apply Z.pow_pos_nonneg; lia).
    set (v := fold_left _ d _) in *.
    split; [lia|].
    apply Z.lt_le_trans with (1 := proj2 IH). nia.
Qed.

Lemma math_value_bounds (d : jsstring) :
  forallb isDigit d = true ->
  (0 <= math_value 10 d < 10 ^ Z.of_nat (length d))%Z.
Proof.
  intros Hd.
  pose proof (@digits_fold_bounds d Hd 0%Z ltac:(lia)) as H.
  cbv zeta in H. unfold math_value. lia.
Qed.

Lemma nearest_double_natural (n v : Z) :
  (0 <= n)%Z -> nearest_double n = Some v -> (0 <= v)%Z.
Proof.
  intros Hn. unfold nearest_double.
  destruct (n <? 2 ^ 53)%Z; [intros [= <-]; assumption|].
  cbv zeta. destruct (2 ^ 1024 <=? _)%Z; [discriminate|].
  intros [= <-]. apply Z.shiftl_nonneg.
  assert (Hq : (0 <= Z.shiftr n (Z.log2 n - 52))%Z)
    by now apply Z.shiftr_nonneg.
  repeat match goal with |- context [if ?b then _ else _] => destruct b end;
    lia.
Qed.

Lemma numeric_value_natural (d : jsstring) :
  forallb isDigit d = true -> is_natural (numeric_value d).
Proof.
  intros Hd. unfold numeric_value, to_number.
  destruct (nearest_double (math_value 10 d)) as [v|] eqn:E; cbn; [|exact I].
  apply (nearest_double_natural (n := math_value 10 d)); [|assumption].
  apply math_value_bounds, Hd.
Qed.

(** X1.  Whatever the content, [extractTemplateIds] returns non-negative
    integers (or positive infinity for a run of digits beyond the range
    of a Number): never [NaN], never a negative number. *)
Theorem extractTemplateIds_natural :
  forall st : State, Forall is_natural (extractTemplateIds st).
Proof.
  intros st. rewrite extractTemplateIds_references.
  rewrite Forall_map.
  eapply Forall_impl; [|apply references_are_digits].
  intros d [_ Hd]. now apply numeric_value_natural.
Qed.

(** X2.  Extraction distributes over a split of the content in front of
    a hash: the ids of the whole are the ids of the part before that
    hash followed by the ids of the part that starts with it. *)
Theorem extractTemplateIds_split_at_hash :
  forall (st : State) (a b : jsstring),
    content st = a ++ HASH :: b ->
    extractTemplateIds st = ids_in a ++ ids_in (HASH :: b).
Proof.
  intros st a b Hc.
  rewrite extractTemplateIds_references, Hc, references_app_hash, map_app.
  now rewrite !ids_in_references.
Qed.

Lemma extractTemplateIds_split_at_hash_witness :
  extractTemplateIds (draft "a #1 b#22" 0 false [])
  = ids_in (js "a #1 b") ++ ids_in (js "#22").
Proof.
  apply (extractTemplateIds_split_at_hash
           (draft "a #1 b#22" 0 false []) (js "a #1 b") (js "22")).
  reflexivity.
Defined.

(** X3.  There are at most as many ids as there are hashes in the
    content; a content without a hash has none. *)
Theorem extractTemplateIds_at_most_hashes :
  forall st : State,
    length (extractTemplateIds st)
    <= count_occ N.eq_dec (content st) HASH
    /\ (~ In HASH (content st) -> extractTemplateIds st = []).
Proof.
  intros st. rewrite extractTemplateIds_references, length_map.
  pose proof (references_count (content st)) as Hle.
  split; [assumption|].
  intros Hno. apply (count_occ_not_In N.eq_dec) in Hno.
  rewrite Hno in Hle.
  destruct (template_references (content st)); [reflexivity|].
  cbn [length] in Hle. lia.
Qed.

Lemma extractTemplateIds_at_most_hashes_witness :
  extractTemplateIds (draft "no reference here" 0 false []) = [].
Proof.
  apply (proj2 (extractTemplateIds_at_most_hashes
                  (draft "no reference here" 0 false []))).
  vm_compute. intuition discriminate.
Defined.

(** X4.  Ids of at most fifteen digits are read without loss: when no
    reference of the content is longer, each id is exactly the integer
    its digits denote. *)
Theorem extractTemplateIds_exact :
  forall st : State,
    Forall (fun d => length d <= 15) (template_references (content st)) ->
    extractTemplateIds st
    = map (fun d => Finite (math_value 10 d))
        (template_references (content st)).
Proof.
  intros st Hshort. rewrite extractTemplateIds_references.
  apply map_ext_in. intros d Hd.
  pose proof (references_are_digits (content st)) as Hall.
  rewrite Forall_forall in Hall, Hshort.
  destruct (Hall d Hd) as [_ Hdig]. specialize (Hshort d Hd).
  apply numeric_value_exact.
  pose proof (math_value_bounds d Hdig) as [_ Hlt].
  eapply Z.lt_le_trans; [exact Hlt|].
  transitivity (10 ^ 15)%Z; [|now vm_compute].
  apply Z.pow_le_mono_r; lia.
Qed.

Lemma extractTemplateIds_exact_witness :
  extractTemplateIds (draft "#123456789012345 and #007" 0 false [])
  = [Finite 123456789012345; Finite 7].
Proof.
  apply (extractTemplateIds_exact
           (draft "#123456789012345 and #007" 0 false [])).
  vm_compute. repeat constructor.
Defined.

End Extraction.

(* ================================================================= *)
(** ** Selecting a template, and reading it back *)

Section Selection.

Lemma uint_digits (d : Decimal.uint) :
  forallb isDigit (js (NilEmpty.string_of_uint d)) = true.
Proof. induction d; cbn; auto. Qed.

(** Reading a numeral from a positive accumulator is [Pos.of_uint_acc]. *)
Lemma uint_fold (d : Decimal.uint) :
  forall p : positive,
    fold_left
      (fun a c => match digit_value 10 c with
                  | Some x => 10 * a + x
                  | None => a
                  end)%Z
      (js (NilEmpty.string_of_uint d)) (Z.pos p)
    = Z.pos (Pos.of_uint_acc d p).
Proof.
  induction d; intros p; [reflexivity|..];
    cbn [NilEmpty.string_of_uint js list_ascii_of_string map fold_left
         Pos.of_uint_acc];
    rewrite <- IHd; f_equal; try reflexivity;
    match goal with
    | |- context [digit_value 10 ?c] =>
        let v := eval vm_compute in (digit_value 10 c) in
        change (digit_value 10 c) with v
    end; lia.
Qed.

Lemma uint_value (d : Decimal.uint) :
  math_value 10 (js (NilEmpty.string_of_uint d)) = Z.of_N (Pos.of_uint d).
Proof.
  unfold math_value.
  induction d; [reflexivity|..];
    cbn [NilEmpty.string_of_uint js list_ascii_of_string map fold_left
         Pos.of_uint Z.of_N];
    match goal with
    | |- fold_left ?f ?l ?a = _ =>
        let v := eval vm_compute in a in change a with v
    end;
    [assumption | apply uint_fold ..].
Qed.

(** The decimal numeral of a non-negative integer is a non-empty run of
    digits whose value is that integer. *)
Lemma Number_toString_natural (n : Z) :
  (0 <= n)%Z ->
  Number_toString n <> []
  /\ forallb isDigit (Number_toString n) = true
  /\ math_value 10 (Number_toString n) = n.
Proof.
  intros Hn. unfold Number_toString.
  destruct n as [|p|p]; [repeat split; discriminate| |lia].
  cbn [Z.to_int NilZero.string_of_int].
  pose proof (Unsigned.to_uint_nonnil p) as Hnil.
  pose proof (Unsigned.of_to p) as Hback.
  unfold NilZero.string_of_uint.
  destruct (Pos.to_uint p) as [|d|d|d|d|d|d|d|d|d|d] eqn:E;
    [congruence|..];
    (split; [discriminate|]);
    (split; [apply uint_digits|]);
    rewrite uint_value, Hback; reflexivity.
Qed.

Lemma span_whole_then (p : N -> bool) (a b : jsstring) :
  forallb p a = true ->
  span p (a ++ b) = (a ++ fst (span p b), snd (span p b)).
Proof.
  induction a as [|c a IH]; cbn [app forallb span]; intros H.
  - now destruct (span p b).
  - apply andb_true_iff in H as [Hc Ha]. rewrite Hc, (IH Ha). reflexivity.
Qed.

(** What [handleTemplateSelect] stores, in terms of the runtime calls. *)
Lemma handleTemplateSelect_run (ls : Storage) (st : State)
    (template : Template) (cfg : Config) :
  run ls (handleTemplateSelect st template) cfg
  = (Finished Normal,
     {| state :=
          {| title := title (state cfg);
             description := description (state cfg);
             content :=
               String_replace (firstn (cursorPosition st) (content st))
                 re_trailing_token 0
                 (HASH :: Number_toString (template_id template))
               ++ skipn (cursorPosition st) (content st);
             tag := tag (state cfg); error := error (state cfg);
             success := success (state cfg); loading := loading (state cfg);
             matchingTemplates := matchingTemplates (state cfg);
             showTemplatePopup := false;
             cursorPosition := cursorPosition (state cfg);
             initialLoading := initialLoading (state cfg) |};
        trace := trace cfg;
        waiting := waiting cfg |}).
Proof.
  unfold handleTemplateSelect. rewrite slice_prefix, slice_suffix.
  reflexivity.
Qed.

Lemma replacement_plain (n : Z) :
  forallb (fun c => negb (c =? DOLLAR)%N) (HASH :: Number_toString n) = true.
Proof. cbn [forallb]. now rewrite Number_toString_no_dollar. Qed.

(** X5.  A selected template is read back at submission.  When the text
    before the caret ends in a token, the selected id is a non-negative
    integer below 2^53 and the text after the caret does not start with a
    digit, the ids extracted from the new content are those of the text
    before the token, then the selected id, then those of the text after
    the caret. *)
Theorem select_then_extract :
  forall (ls : Storage) (st : State) (template : Template) (cfg : Config)
         (pre token : jsstring),
    firstn (cursorPosition st) (content st) = pre ++ HASH :: token ->
    forallb isWordChar token = true ->
    (0 <= template_id template < 2 ^ 53)%Z ->
    no_leading_digit (skipn (cursorPosition st) (content st)) ->
    extractTemplateIds
      (state (snd (run ls (handleTemplateSelect st template) cfg)))
    = ids_in pre
      ++ Finite (template_id template)
         :: ids_in (skipn (cursorPosition st) (content st)).
Proof.
  intros ls st template cfg pre token Hbefore Hword [Hlo Hhi] Hafter.
  rewrite handleTemplateSelect_run. cbn [snd state].
  rewrite extractTemplateIds_references. cbn [content].
  rewrite Hbefore, replace_trailing_token
    by (assumption || apply replacement_plain).
  set (after := skipn (cursorPosition st) (content st)) in *.
  destruct (Number_toString_natural Hlo) as (Hne & Hdig & Hval).
  set (numeral := Number_toString (template_id template)) in *.
  rewrite <- app_assoc. cbn [app].
  rewrite references_app_hash, map_app, !ids_in_references.
  f_equal. cbn [template_references]. rewrite N.eqb_refl.
  rewrite (span_whole_then isDigit numeral after Hdig). cbn [fst].
  unfold no_leading_digit in Hafter. rewrite Hafter, app_nil_r.
  rewrite (references_skip_digits numeral after Hdig).
  destruct numeral as [|c ds]; [congruence|]. cbn [map]. f_equal.
  rewrite numeric_value_exact by (rewrite Hval; assumption).
  now rewrite Hval.
Qed.

Lemma select_then_extract_witness :
  let st := draft "see #1 and #fo, then #3" 14 true [] in
  let template := {| template_id := 42; template_title := js "fold" |} in
  extractTemplateIds
    (state (snd (run (fun _ => None) (handleTemplateSelect st template)
                   (start st))))
  = [Finite 1; Finite 42; Finite 3].
Proof.
  intros st template.
  apply (@select_then_extract (fun _ => None) st template (start st)
           (js "see #1 and ") (js "fo"));
    [reflexivity | reflexivity | now vm_compute | reflexivity].
Defined.

(** X6.  The numeral is inserted without a separator, so digits that
    follow the caret continue it: for a selected id that is a non-negative
    integer below 2^53, the ids extracted from the new content hold, at
    the place of the selection, the value of the numeral continued by the
    digits that start the text after the caret. *)
Theorem select_before_digits :
  forall (ls : Storage) (st : State) (template : Template) (cfg : Config)
         (pre token : jsstring),
    firstn (cursorPosition st) (content st) = pre ++ HASH :: token ->
    forallb isWordChar token = true ->
    (0 <= template_id template < 2 ^ 53)%Z ->
    let after := skipn (cursorPosition st) (content st) in
    extractTemplateIds
      (state (snd (run ls (handleTemplateSelect st template) cfg)))
    = ids_in pre
      ++ numeric_value
           (Number_toString (template_id template)
            ++ fst (span isDigit after))
         :: ids_in after.
Proof.
  intros ls st template cfg pre token Hbefore Hword [Hlo Hhi] after.
  rewrite handleTemplateSelect_run. cbn [snd state].
  rewrite extractTemplateIds_references. cbn [content].
  rewrite Hbefore, replace_trailing_token
    by (assumption || apply replacement_plain).
  fold after.
  destruct (Number_toString_natural Hlo) as (Hne & Hdig & _).
  set (numeral := Number_toString (template_id template)) in *.
  rewrite <- app_assoc. cbn [app].
  rewrite references_app_hash, map_app, !ids_in_references.
  f_equal. cbn [template_references]. rewrite N.eqb_refl.
  rewrite (span_whole_then isDigit numeral after Hdig). cbn [fst].
  rewrite (references_skip_digits numeral after Hdig).
  destruct numeral as [|c ds]; [congruence|]. reflexivity.
Qed.

Lemma select_before_digits_witness :
  let st := draft "buy #fo7 apples" 7 true [] in
  let template := {| template_id := 42; template_title := js "fold" |} in
  extractTemplateIds
    (state (snd (run (fun _ => None) (handleTemplateSelect st template)
                   (start st))))
  = [Finite 427].
Proof.
  intros st template.
  apply (@select_before_digits (fun _ => None) st template (start st)
           (js "buy ") (js "fo"));
    [reflexivity | reflexivity | now vm_compute].
Defined.

End Selection.

(* ================================================================= *)
(** ** Further properties of the loader *)

Section Loader.

Ltac run_handler :=
  cbn -[js extractTemplateIds query_toString or_else Z.eqb render requests].

Lemma or_else_truthy (v : option jsstring) (d : jsstring) :
  truthy d = true -> truthy (or_else v d) = true.
Proof.
  intros Hd. unfold or_else. destruct v as [s|]; [|assumption].
  destruct (truthy s) eqn:E; assumption.
Qed.

(** The loader once it has a token: it is suspended on the read request,
    and this is how it goes on when the request settles. *)
Lemma fetchBlogPost_run (ls : Storage) (id : QueryValue) (token : jsstring)
    (cfg : Config) :
  truthy_query id = true ->
  ls (js "accessToken") = Some token ->
  truthy token = true ->
  exists k,
    run ls (fetchBlogPost id) cfg
    = (Suspended (post_request GET id token None) k,
       {| state := state cfg;
          trace := trace cfg ++ [Issued (post_request GET id token None)];
          waiting := waiting cfg |})
    /\ forall (ls' : Storage) (a : AxiosResult) (cfg' : Config),
         run ls' (k a) cfg'
         = run ls'
             (function_body
                (try_finally
                   (try_catch
                      match a with
                      | Resolved response =>
                          match data response with
                          | None => Done (Throw TypeError)
                          | Some d =>
                              match blogPost d with
                              | None => Done (Throw TypeError)
                              | Some post =>
                                  (setTitle (post_title post) ;;
                                   setDescription (post_description post) ;;
                                   setContent (post_content post) ;;
                                   setTag (post_tag post))%async
                              end
                          end
                      | Rejected e => Done (Throw e)
                      end
                      (fun err =>
                         setError
                           (Some (or_else (response_error err)
                                    (js "Failed to load blog post")))))
                   (setInitialLoading false)))
             cfg'.
Proof.
  intros Hid Htoken Htruthy. unfold fetchBlogPost.
  rewrite Hid. run_handler. rewrite Htoken. cbn [truthy_opt].
  rewrite Htruthy. run_handler.
  eexists. split; [reflexivity|].
  intros ls' a cfg'. destruct a as [response|e]; [|reflexivity].
  destruct (data response) as [d|]; [|reflexivity].
  destruct (blogPost d); reflexivity.
Qed.

(** X7.  Without an identifier in the route (the parameter is undefined
    or the empty string) the loader returns at once: it reads no token,
    sends nothing and changes nothing, so the loading flag is not lowered
    and the page keeps showing the loading screen. *)
Theorem fetchBlogPost_without_id :
  forall (ls : Storage) (id : QueryValue) (cfg : Config),
    truthy_query id = false ->
    run ls (fetchBlogPost id) cfg = (Finished Normal, cfg)
    /\ (initialLoading (state cfg) = true ->
        render (state (snd (run ls (fetchBlogPost id) cfg)))
        = LoadingScreen).
Proof.
  intros ls id cfg Hid. unfold fetchBlogPost. rewrite Hid.
  split; [reflexivity|].
  intros Hload. cbn [run function_body when negb seq snd].
  unfold render. now rewrite Hload.
Qed.

Lemma fetchBlogPost_without_id_witness :
  run (fun _ => Some (js "secret")) (fetchBlogPost QUndefined)
    (start initialState)
  = (Finished Normal, start initialState)
  /\ render
       (state (snd (run (fun _ => Some (js "secret"))
                      (fetchBlogPost QUndefined) (start initialState))))
     = LoadingScreen.
Proof.
  pose proof (@fetchBlogPost_without_id (fun _ => Some (js "secret"))
                QUndefined (start initialState) eq_refl) as [H1 H2].
  split; [exact H1 | apply H2; reflexivity].
Defined.

(** X8.  When the read request is rejected, the loader sets the error to
    the message of the server if it sent a non-empty one, and to "Failed
    to load blog post" otherwise; the fields, the matches, the popup and
    the caret are untouched, the loading flag is lowered and nothing more
    is sent. *)
Theorem fetchBlogPost_rejected :
  forall (ls : Storage) (id : QueryValue) (token : jsstring) (cfg : Config),
    truthy_query id = true ->
    ls (js "accessToken") = Some token ->
    truthy token = true ->
    forall (ls' : Storage) (err : Error) (cfg' : Config),
      let q := resume ls' (fst (run ls (fetchBlogPost id) cfg))
                 (Rejected err) cfg' in
      fst q = Finished Normal
      /\ error (state (snd q))
         = Some (or_else (response_error err) (js "Failed to load blog post"))
      /\ same_editor (state (snd q)) (state cfg')
      /\ initialLoading (state (snd q)) = false
      /\ trace (snd q) = trace cfg'.
Proof.
  intros ls id token cfg Hid Htoken Htruthy ls' err cfg'.
  destruct (fetchBlogPost_run ls id cfg Hid Htoken Htruthy) as (k & Hrun & Hk).
  rewrite Hrun. cbn [fst resume]. rewrite Hk. cbv zeta.
  unfold same_editor, same_fields. repeat split.
Qed.

Lemma fetchBlogPost_rejected_witness :
  let ls : Storage := fun _ => Some (js "secret") in
  let p := run ls (fetchBlogPost (QString (js "12"))) (start initialState) in
  let gone := AxiosError (Some {| error_status := 404;
                                  error_message := Some (js "Not found") |}) in
  error (state (snd (resume ls (fst p) (Rejected gone) (snd p))))
  = Some (js "Not found")
  /\ error (state (snd (resume ls (fst p) (Rejected (AxiosError None))
                          (snd p))))
     = Some (js "Failed to load blog post").
Proof.
  intros ls p gone. split.
  - apply (@fetchBlogPost_rejected ls (QString (js "12")) (js "secret")
             (start initialState) eq_refl eq_refl eq_refl ls gone (snd p)).
  - apply (@fetchBlogPost_rejected ls (QString (js "12")) (js "secret")
             (start initialState) eq_refl eq_refl eq_refl ls
             (AxiosError None) (snd p)).
Defined.

(** X9.  A response without a post is handled like a failure: when the
    read request resolves and its payload has no body or no [blogPost],
    reading the post's title throws, the error becomes "Failed to load
    blog post", the four fields keep their values and the loading flag is
    lowered. *)
Theorem fetchBlogPost_without_post :
  forall (ls : Storage) (id : QueryValue) (token : jsstring) (cfg : Config),
    truthy_query id = true ->
    ls (js "accessToken") = Some token ->
    truthy token = true ->
    forall (ls' : Storage) (response : Response) (cfg' : Config),
      match data response with
      | Some d => blogPost d = None
      | None => True
      end ->
      let q := resume ls' (fst (run ls (fetchBlogPost id) cfg))
                 (Resolved response) cfg' in
      fst q = Finished Normal
      /\ error (state (snd q)) = Some (js "Failed to load blog post")
      /\ same_editor (state (snd q)) (state cfg')
      /\ initialLoading (state (snd q)) = false
      /\ trace (snd q) = trace cfg'.
Proof.
  intros ls id token cfg Hid Htoken Htruthy ls' response cfg' Hdata.
  destruct (fetchBlogPost_run ls id cfg Hid Htoken Htruthy) as (k & Hrun & Hk).
  rewrite Hrun. cbn [fst resume]. rewrite Hk. cbv zeta.
  unfold same_editor, same_fields.
  destruct (data response) as [d|]; [rewrite Hdata|]; repeat split.
Qed.

Lemma fetchBlogPost_without_post_witness :
  let ls : Storage := fun _ => Some (js "secret") in
  let p := run ls (fetchBlogPost (QString (js "12"))) (start initialState) in
  let q := resume ls (fst p)
             (Resolved {| status := 200;
                          data := Some {| blogPost := None;
                                          codeTemplates := None |} |})
             (snd p) in
  error (state (snd q)) = Some (js "Failed to load blog post")
  /\ title (state (snd q)) = [].
Proof.
  intros ls p q.
  pose proof (@fetchBlogPost_without_post ls (QString (js "12"))
                (js "secret") (start initialState) eq_refl eq_refl eq_refl
                ls {| status := 200;
                      data := Some {| blogPost := None;
                                      codeTemplates := None |} |}
                (snd p) eq_refl) as H.
  cbv zeta in H. destruct H as (_ & Herr & Hsame & _).
  split; [exact Herr | apply Hsame].
Defined.

(** X10.  With an identifier in the route the loader always comes to an
    end and lowers the loading flag, with or without a token and however
    the request settles: the page then shows the form, and at most one
    request was sent. *)
Theorem fetchBlogPost_shows_form :
  forall (ls : Storage) (id : QueryValue) (a : AxiosResult) (cfg : Config),
    truthy_query id = true ->
    let p := run ls (fetchBlogPost id) cfg in
    let q := resume ls (fst p) a (snd p) in
    fst q = Finished Normal
    /\ initialLoading (state (snd q)) = false
    /\ (exists f, render (state (snd q)) = EditForm f)
    /\ length (requests (trace (snd q)))
       <= S (length (requests (trace cfg))).
Proof.
  intros ls id a cfg Hid p q.
  assert (Hview : forall st, initialLoading st = false ->
                             exists f, render st = EditForm f).
  { intros st H. unfold render. rewrite H. eexists. reflexivity. }
  assert (Hreq : forall r, length (requests (trace cfg ++ [Issued r]))
                           = S (length (requests (trace cfg)))).
  { intros r. unfold requests. rewrite flat_map_app, length_app.
    cbn. lia. }
  destruct (truthy_opt (ls (js "accessToken"))) eqn:Htok.
  - destruct (ls (js "accessToken")) as [token|] eqn:Hls; [|discriminate].
    cbn [truthy_opt] in Htok.
    destruct (fetchBlogPost_run ls id cfg Hid Hls Htok) as (k & Hrun & Hk).
    subst q p. rewrite Hrun. cbn [fst snd resume]. rewrite Hk.
    destruct a as [response|e].
    + destruct (data response) as [d|]; [destruct (blogPost d)|];
        (split; [reflexivity|]); (split; [reflexivity|]);
        (split; [apply Hview; reflexivity|]);
        cbn [run function_body try_finally try_catch complete_with seq
             setTitle setDescription setContent setTag setError
             setInitialLoading trace snd];
        rewrite Hreq; lia.
    + (split; [reflexivity|]); (split; [reflexivity|]);
        (split; [apply Hview; reflexivity|]).
      cbn [run function_body try_finally try_catch complete_with seq
           setError setInitialLoading trace snd].
      rewrite Hreq. lia.
  - subst q p. unfold fetchBlogPost. rewrite Hid. run_handler.
    destruct (ls (js "accessToken")) as [token|].
    + cbn [truthy_opt] in Htok. cbn [truthy_opt]. rewrite Htok. run_handler.
      repeat split; [apply Hview; reflexivity | lia].
    + run_handler. repeat split; [apply Hview; reflexivity | lia].
Qed.

Lemma fetchBlogPost_shows_form_witness :
  let ls : Storage := fun _ => Some (js "secret") in
  let p := run ls (fetchBlogPost (QString (js "12"))) (start initialState) in
  let q := resume ls (fst p) (Rejected (AxiosError None)) (snd p) in
  initialLoading (state (snd q)) = false
  /\ length (requests (trace (snd q))) <= 1.
Proof.
  intros ls p q.
  pose proof (@fetchBlogPost_shows_form ls (QString (js "12"))
                (Rejected (AxiosError None)) (start initialState) eq_refl)
    as H.
  cbv zeta in H. destruct H as (_ & Hload & _ & Hreq).
  split; [exact Hload | exact Hreq].
Defined.

End Loader.

(* ================================================================= *)
(** ** Further properties of the autocomplete *)

Section Popup.

(** The search is suspended on its request, and this is how it goes on
    when the request settles. *)
Lemma handleTemplateSearch_run (ls : Storage) (searchText : jsstring)
    (cfg : Config) :
  exists k,
    run ls (handleTemplateSearch searchText) cfg
    = (Suspended (search_request searchText) k,
       {| state := state cfg;
          trace := trace cfg ++ [Issued (search_request searchText)];
          waiting := waiting cfg |})
    /\ forall (ls' : Storage) (a : AxiosResult) (cfg' : Config),
         run ls' (k a) cfg'
         = match a with
           | Resolved {| status := _; data := Some d |} =>
               (Finished Normal,
                {| state :=
                     with_matches (state cfg')
                       match codeTemplates d with
                       | Some l => l
                       | None => []
                       end;
                   trace := trace cfg';
                   waiting := waiting cfg' |})
           | Resolved {| status := _; data := None |} =>
               (Finished Normal,
                {| state := state cfg';
                   trace := trace cfg'
                            ++ [ConsoleError (js "Failed to fetch templates:")
                                  TypeError];
                   waiting := waiting cfg' |})
           | Rejected e =>
               (Finished Normal,
                {| state := state cfg';
                   trace := trace cfg'
                            ++ [ConsoleError (js "Failed to fetch templates:")
                                  e];
                   waiting := waiting cfg' |})
           end.
Proof.
  eexists. split; [reflexivity|].
  intros ls' a cfg'. destruct a as [[code [d|]]|e]; reflexivity.
Qed.

(** X11.  When the search request resolves, [handleTemplateSearch]
    replaces the list of matching templates by the [codeTemplates] of the
    payload, or by the empty list when the payload has no such property
    (as for an empty body, which axios delivers as the empty string), and
    touches nothing else; when [response.data] is [null] (a JSON [null]
    body), reading the property throws, which is logged like a failure
    and changes nothing. *)
Theorem handleTemplateSearch_resolved :
  forall (ls ls' : Storage) (searchText : jsstring) (cfg cfg' : Config)
         (code : Z),
    let p := run ls (handleTemplateSearch searchText) cfg in
    (forall d : ResponseData,
       resume ls' (fst p) (Resolved {| status := code; data := Some d |}) cfg'
       = (Finished Normal,
          {| state :=
               with_matches (state cfg')
                 match codeTemplates d with
                 | Some l => l
                 | None => []
                 end;
             trace := trace cfg';
             waiting := waiting cfg' |}))
    /\ resume ls' (fst p) (Resolved {| status := code; data := None |}) cfg'
       = (Finished Normal,
          {| state := state cfg';
             trace := trace cfg'
                      ++ [ConsoleError (js "Failed to fetch templates:")
                            TypeError];
             waiting := waiting cfg' |}).
Proof.
  intros ls ls' searchText cfg cfg' code.
  destruct (handleTemplateSearch_run ls searchText cfg) as (k & Hrun & Hk).
  cbv zeta. rewrite Hrun. cbn [fst resume]. split.
  - intros d. now rewrite Hk.
  - now rewrite Hk.
Qed.

(** What [handleContentChange] does, by the outcome of its match. *)
Lemma handleContentChange_run (ls : Storage) (e : ChangeEvent)
    (cfg : Config) :
  let text := firstn (selectionStart e) (value e) in
  let typed popup :=
    {| title := title (state cfg); description := description (state cfg);
       content := value e; tag := tag (state cfg);
       error := error (state cfg); success := success (state cfg);
       loading := loading (state cfg);
       matchingTemplates := matchingTemplates (state cfg);
       showTemplatePopup := popup;
       cursorPosition := selectionStart e;
       initialLoading := initialLoading (state cfg) |} in
  let r := run ls (handleContentChange e) cfg in
  fst r = Finished Normal
  /\ ((exists token,
         ends_with_token text token /\ token <> []
         /\ state (snd r) = typed true
         /\ trace (snd r) = trace cfg ++ [Issued (search_request token)]
         /\ map fst (waiting (snd r))
            = map fst (waiting cfg) ++ [search_request token])
      \/ (ends_with_token text []
          /\ snd r = {| state := typed (showTemplatePopup (state cfg));
                        trace := trace cfg; waiting := waiting cfg |})
      \/ ((forall token, ~ ends_with_token text token)
          /\ snd r = {| state := typed false;
                        trace := trace cfg; waiting := waiting cfg |})).
Proof.
  intros text typed r. subst r. unfold handleContentChange.
  cbv zeta. rewrite slice_prefix. fold text.
  unfold String_match. rewrite exec_from_start.
  destruct (ends_with_token_cases text) as [(token & Hends & Hne)|[Hends|Hnone]].
  - rewrite (ends_with_token_search Hends).
    destruct token as [|c t]; [congruence|].
    split; [reflexivity|]. left. exists (c :: t).
    split; [assumption|]. split; [discriminate|].
    split; [reflexivity|]. split; [reflexivity|].
    cbn [run function_body seq when capture groups find fst snd Nat.eqb
         option_map length Nat.ltb Nat.leb setContent setCursorPosition
         setShowTemplatePopup waiting handleTemplateSearch try_catch
         await_axios].
    rewrite map_app. reflexivity.
  - rewrite (ends_with_token_search Hends).
    split; [reflexivity|]. right. left. split; [assumption|reflexivity].
  - rewrite (@search_token_none re_search_token (fun t => [(1, t)])
               search_token_at text 0 Hnone).
    split; [reflexivity|]. right. right. split; [assumption|reflexivity].
Qed.

(** X12.  A content change writes the content, the caret offset and the
    popup flag only: the title, description, tag, both messages, the
    loading flags and the list of matches keep their values, and the
    handler always returns normally. *)
Theorem handleContentChange_frame :
  forall (ls : Storage) (e : ChangeEvent) (cfg : Config),
    let r := run ls (handleContentChange e) cfg in
    fst r = Finished Normal
    /\ content (state (snd r)) = value e
    /\ cursorPosition (state (snd r)) = selectionStart e
    /\ title (state (snd r)) = title (state cfg)
    /\ description (state (snd r)) = description (state cfg)
    /\ tag (state (snd r)) = tag (state cfg)
    /\ error (state (snd r)) = error (state cfg)
    /\ success (state (snd r)) = success (state cfg)
    /\ loading (state (snd r)) = loading (state cfg)
    /\ initialLoading (state (snd r)) = initialLoading (state cfg)
    /\ matchingTemplates (state (snd r)) = matchingTemplates (state cfg).
Proof.
  intros ls e cfg.
  destruct (handleContentChange_run ls e cfg)
    as (Hfin & [(token & _ & _ & Hst & _)|[(_ & Hcfg)|(_ & Hcfg)]]);
    cbv zeta; (split; [assumption|]);
    rewrite ?Hst, ?Hcfg; repeat split.
Qed.

(** X13.  A content change sends at most one request, and only a
    template search whose title is a non-empty run of word characters,
    the one that ends the text before the caret. *)
Theorem handleContentChange_requests :
  forall (ls : Storage) (e : ChangeEvent) (cfg : Config),
    let r := run ls (handleContentChange e) cfg in
    trace (snd r) = trace cfg
    \/ exists token,
         trace (snd r) = trace cfg ++ [Issued (search_request token)]
         /\ token <> []
         /\ forallb isWordChar token = true
         /\ ends_with_token (firstn (selectionStart e) (value e)) token.
Proof.
  intros ls e cfg.
  destruct (handleContentChange_run ls e cfg)
    as (_ & [(token & Hends & Hne & _ & Htr & _)|[(_ & Hcfg)|(_ & Hcfg)]]);
    cbv zeta.
  - right. exists token. repeat split; try assumption.
    now destruct Hends as (pre & _ & Hw).
  - left. now rewrite Hcfg.
  - left. now rewrite Hcfg.
Qed.

(** X14.  Only the text before the caret counts: two edits that agree up
    to the caret send the same requests and leave the popup flag in the
    same state, whatever follows the caret. *)
Theorem handleContentChange_ignores_suffix :
  forall (ls : Storage) (e1 e2 : ChangeEvent) (cfg : Config),
    firstn (selectionStart e1) (value e1)
    = firstn (selectionStart e2) (value e2) ->
    let r1 := run ls (handleContentChange e1) cfg in
    let r2 := run ls (handleContentChange e2) cfg in
    trace (snd r1) = trace (snd r2)
    /\ showTemplatePopup (state (snd r1)) = showTemplatePopup (state (snd r2))
    /\ map fst (waiting (snd r1)) = map fst (waiting (snd r2)).
Proof.
  intros ls e1 e2 cfg Htext r1 r2. subst r1 r2.
  unfold handleContentChange. cbv zeta. rewrite !slice_prefix, Htext.
  destruct (String_match _ re_search_token) as [m|]; [|repeat split].
  destruct (capture m 1) as [[|c t]|]; repeat split.
Qed.

Lemma handleContentChange_ignores_suffix_witness :
  let ls : Storage := fun _ => None in
  let cfg := start (draft "hello" 5 false []) in
  let r1 := run ls (handleContentChange
                      {| value := js "hello #fo"; selectionStart := 9 |})
              cfg in
  let r2 := run ls (handleContentChange
                      {| value := js "hello #fo # bar"; selectionStart := 9 |})
              cfg in
  trace (snd r1) = trace (snd r2)
  /\ showTemplatePopup (state (snd r1)) = showTemplatePopup (state (snd r2)).
Proof.
  intros ls cfg r1 r2.
  pose proof (@handleContentChange_ignores_suffix ls
                {| value := js "hello #fo"; selectionStart := 9 |}
                {| value := js "hello #fo # bar"; selectionStart := 9 |}
                cfg eq_refl) as H.
  cbv zeta in H. destruct H as (Htr & Hpop & _). now split.
Defined.

(** X15.  Typing a token and picking a suggestion: when an edit leaves
    the caret right after a hash and word characters and a template whose
    id is an integer of magnitude below 2^53 is selected in the state that
    the edit produced, the content becomes the text before the hash, a
    hash, the numeral of the template's id and the text that followed the
    caret, and the popup is closed. *)
Theorem type_then_select :
  forall (ls : Storage) (e : ChangeEvent) (template : Template)
         (cfg : Config) (pre token : jsstring),
    firstn (selectionStart e) (value e) = pre ++ HASH :: token ->
    forallb isWordChar token = true ->
    (Z.abs (template_id template) < 2 ^ 53)%Z ->
    let c1 := snd (run ls (handleContentChange e) cfg) in
    let c2 := snd (run ls (handleTemplateSelect (state c1) template) c1) in
    content (state c2)
    = pre ++ HASH :: Number_toString (template_id template)
      ++ skipn (selectionStart e) (value e)
    /\ showTemplatePopup (state c2) = false
    /\ trace c2 = trace c1.
Proof.
  intros ls e template cfg pre token Htext Hword Hid c1 c2.
  assert (Hc : content (state c1) = value e
               /\ cursorPosition (state c1) = selectionStart e).
  { subst c1.
    destruct (handleContentChange_run ls e cfg)
      as (_ & [(t & _ & _ & Hst & _)|[(_ & Hcfg)|(_ & Hcfg)]]);
      cbv zeta in *; rewrite ?Hst, ?Hcfg; split; reflexivity. }
  destruct Hc as [Hcontent Hcaret].
  subst c2. rewrite handleTemplateSelect_run. cbn [snd state content
    showTemplatePopup trace].
  rewrite Hcontent, Hcaret, Htext.
  rewrite replace_trailing_token
    by (assumption || apply replacement_plain).
  rewrite <- app_assoc. repeat split.
Qed.

Lemma type_then_select_witness :
  let ls : Storage := fun _ => None in
  let c1 := snd (run ls (handleContentChange
                           {| value := js "hello #fo bar";
                              selectionStart := 9 |})
                   (start (draft "hello # bar" 7 false []))) in
  let c2 := snd (run ls (handleTemplateSelect (state c1)
                           {| template_id := 42;
                              template_title := js "fold" |}) c1) in
  content (state c2) = js "hello #42 bar".
Proof.
  intros ls c1 c2.
  apply (@type_then_select ls
           {| value := js "hello #fo bar"; selectionStart := 9 |}
           {| template_id := 42; template_title := js "fold" |}
           (start (draft "hello # bar" 7 false []))
           (js "hello ") (js "fo")); reflexivity.
Defined.



End Popup.

(* ================================================================= *)
(** ** Further properties of the update, and of all handlers *)

Section Update.

Ltac run_handler :=
  cbn -[js extractTemplateIds query_toString or_else Z.eqb render requests].

(** The cases of [handleUpdatePost]: a field is empty; no usable token;
    the request is sent. *)
Ltac update_cases ls st :=
  unfold handleUpdatePost;
  destruct (negb (truthy (title st)) || negb (truthy (description st))
            || negb (truthy (content st)) || negb (truthy (tag st)));
  run_handler;
  [| destruct (ls (js "accessToken")) as [[|? ?]|]; run_handler ].

(** The cases of [fetchBlogPost]: no identifier; no usable token; the
    request is sent. *)
Ltac load_cases ls id :=
  unfold fetchBlogPost;
  destruct (truthy_query id);
  run_handler;
  [ destruct (ls (js "accessToken")) as [[|? ?]|]; run_handler |].

(** The cases of a settled request. *)
Ltac settle_cases a :=
  destruct a as [[? [[[?|] ?]|]]|?]; run_handler;
  try match goal with
      | |- context [(?s =? 200)%Z] => destruct (s =? 200)%Z; run_handler
      end.

(** X17.  An update never edits the post from under the user: whatever
    the fields, the token and the outcome of the request, the four
    fields, the matches, the popup flag, the caret and the page-loading
    flag are the same after [handleUpdatePost] as before, both when it is
    called and when its request settles. *)
Theorem handleUpdatePost_frame :
  forall (ls ls' : Storage) (id : QueryValue) (st : State)
         (a : AxiosResult) (cfg cfg' : Config),
    let p := run ls (handleUpdatePost id st) cfg in
    let q := resume ls' (fst p) a cfg' in
    (same_editor (state (snd p)) (state cfg)
     /\ initialLoading (state (snd p)) = initialLoading (state cfg))
    /\ (same_editor (state (snd q)) (state cfg')
        /\ initialLoading (state (snd q)) = initialLoading (state cfg')).
Proof.
  intros ls ls' id st a cfg cfg'. cbv zeta.
  unfold same_editor, same_fields.
  update_cases ls st; try (repeat split; fail).
  split; [repeat split|]. settle_cases a; repeat split.
Qed.

(** X18.  An empty string stored as the token counts as no token: the
    loader and the update both stop with their login error and send
    nothing. *)
Theorem empty_token_is_no_token :
  forall (ls : Storage) (id : QueryValue) (st : State) (cfg : Config),
    ls (js "accessToken") = Some [] ->
    (truthy_query id = true ->
     let r := run ls (fetchBlogPost id) cfg in
     fst r = Finished Normal
     /\ error (state (snd r))
        = Some (js "You need to be logged in to edit posts")
     /\ trace (snd r) = trace cfg)
    /\ (truthy (title st) = true -> truthy (description st) = true ->
        truthy (content st) = true -> truthy (tag st) = true ->
        let r := run ls (handleUpdatePost id st) cfg in
        fst r = Finished Normal
        /\ error (state (snd r))
           = Some (js "You need to log in to update the blog post.")
        /\ loading (state (snd r)) = false
        /\ trace (snd r) = trace cfg).
Proof.
  intros ls id st cfg Htoken. split.
  - intros Hid. cbv zeta. unfold fetchBlogPost. rewrite Hid.
    run_handler. rewrite Htoken. run_handler. repeat split.
  - intros Ht Hd Hc Hg. cbv zeta. unfold handleUpdatePost.
    rewrite Ht, Hd, Hc, Hg. run_handler. rewrite Htoken. run_handler.
    repeat split.
Qed.

Lemma empty_token_is_no_token_witness :
  let ls : Storage := fun _ => Some [] in
  let st := draft "see #1" 6 false [] in
  trace (snd (run ls (fetchBlogPost (QString (js "12")))
                (start initialState))) = []
  /\ trace (snd (run ls (handleUpdatePost (QString (js "12")) st)
                   (start st))) = [].
Proof.
  intros ls st.
  destruct (@empty_token_is_no_token ls (QString (js "12")) st
              (start initialState) eq_refl) as [Hload _].
  destruct (@empty_token_is_no_token ls (QString (js "12")) st
              (start st) eq_refl) as [_ Hupdate].
  split.
  - apply (Hload eq_refl).
  - apply (Hupdate eq_refl eq_refl eq_refl eq_refl).
Defined.

(** X19.  The update button follows the request: once a valid form is
    submitted with a token the form shows the button disabled and
    labelled "Updating...", and when the request settles, in whatever
    way, the button is enabled again and labelled "Update Post". *)
Theorem update_button_follows_request :
  forall (ls ls' : Storage) (id : QueryValue) (st : State)
         (token : jsstring) (a : AxiosResult) (cfg cfg' : Config),
    truthy (title st) = true -> truthy (description st) = true ->
    truthy (content st) = true -> truthy (tag st) = true ->
    ls (js "accessToken") = Some token -> truthy token = true ->
    initialLoading (state cfg) = false ->
    initialLoading (state cfg') = false ->
    let p := run ls (handleUpdatePost id st) cfg in
    let q := resume ls' (fst p) a cfg' in
    (exists f, render (state (snd p)) = EditForm f
               /\ updateDisabled f = true
               /\ updateLabel f = js "Updating...")
    /\ (exists f, render (state (snd q)) = EditForm f
                  /\ updateDisabled f = false
                  /\ updateLabel f = js "Update Post").
Proof.
  intros ls ls' id st token a cfg cfg' Ht Hd Hc Hg Htoken Htruthy
         Hload Hload'.
  cbv zeta. unfold handleUpdatePost. rewrite Ht, Hd, Hc, Hg.
  run_handler. rewrite Htoken. cbn [truthy_opt]. rewrite Htruthy.
  run_handler. unfold render. split.
  - cbn [initialLoading loading]. rewrite Hload.
    eexists. repeat split.
  - settle_cases a; cbn [initialLoading loading]; rewrite Hload';
      eexists; repeat split.
Qed.

Lemma update_button_follows_request_witness :
  let ls : Storage := fun _ => Some (js "secret") in
  let st := draft "see #1" 6 false [] in
  let p := run ls (handleUpdatePost (QString (js "12")) st) (start st) in
  let q := resume ls (fst p) (Rejected (AxiosError None)) (snd p) in
  (exists f, render (state (snd p)) = EditForm f /\ updateDisabled f = true)
  /\ (exists f, render (state (snd q)) = EditForm f
                /\ updateDisabled f = false).
Proof.
  intros ls st p q.
  destruct (@update_button_follows_request ls ls (QString (js "12")) st
              (js "secret") (Rejected (AxiosError None)) (start st) (snd p)
              eq_refl eq_refl eq_refl eq_refl eq_refl eq_refl eq_refl eq_refl)
    as [(f & Hf & Hdis & _) (g & Hg & Hen & _)].
  split; [exists f | exists g]; split; assumption.
Defined.

Lemma visible_or_else (v : option jsstring) (d : string) :
  truthy (js d) = true ->
  Some (or_else v (js d)) = None \/ truthy_opt (Some (or_else v (js d))) = true.
Proof. intros H. right. now apply or_else_truthy. Qed.

(** X20.  No handler sets a message that the form would not show.  The
    initial state has no message; if every message that is set is a
    non-empty string before one of the five handlers is called, or before
    its request settles, this is still so afterwards; and in such a state
    the alerts of the form are exactly the two messages. *)
Theorem messages_stay_visible :
  messages_visible initialState
  /\ (forall (ls ls' : Storage) (id : QueryValue) (st : State)
             (e : ChangeEvent) (template : Template) (searchText : jsstring)
             (h : Async) (a : AxiosResult) (cfg cfg' : Config),
        In h [fetchBlogPost id; handleTemplateSearch searchText;
              handleContentChange e; handleTemplateSelect st template;
              handleUpdatePost id st] ->
        (messages_visible (state cfg) ->
         messages_visible (state (snd (run ls h cfg))))
        /\ (messages_visible (state cfg') ->
            messages_visible
              (state (snd (resume ls' (fst (run ls h cfg)) a cfg')))))
  /\ (forall s : State,
        messages_visible s ->
        alert (error s) = error s /\ alert (success s) = success s).
Proof.
  split; [split; left; reflexivity|]. split.
  - intros ls ls' id st e template searchText h a cfg cfg' Hin.
    cbn [In] in Hin.
    destruct Hin as [<-|[<-|[<-|[<-|[<-|[]]]]]].
    + (* fetchBlogPost *)
      unfold messages_visible. load_cases ls id;
        (split; [intros [He Hs] |
                 intros [He Hs]; try settle_cases a]);
        try (split; assumption);
        (split; [first [assumption | apply visible_or_else; reflexivity
                       | right; reflexivity]
                | assumption]).
    + (* handleTemplateSearch *)
      unfold messages_visible. run_handler.
      split; [intros H; exact H|].
      intros H. settle_cases a; exact H.
    + (* handleContentChange *)
      destruct (handleContentChange_run ls e cfg)
        as (Hfin & [(token & _ & _ & Hst & _)|[(_ & Hcfg)|(_ & Hcfg)]]);
        cbv zeta in *; rewrite Hfin, ?Hst, ?Hcfg;
        unfold messages_visible; cbn [resume snd state error success];
        split; intros H; exact H.
    + (* handleTemplateSelect *)
      rewrite handleTemplateSelect_run. unfold messages_visible.
      cbn [resume fst snd state error success].
      split; intros H; exact H.
    + (* handleUpdatePost *)
      unfold messages_visible. update_cases ls st;
        (split; [intros [He Hs] |
                 intros [He Hs]; try settle_cases a]);
        try (split; assumption);
        (split; [first [assumption | apply visible_or_else; reflexivity
                       | right; reflexivity | left; reflexivity]
                | first [assumption | right; reflexivity
                        | left; reflexivity]]).
  - intros s [He Hs]. unfold alert. split.
    + destruct He as [He|He]; rewrite He; [reflexivity|].
      now destruct (error s).
    + destruct Hs as [Hs|Hs]; rewrite Hs; [reflexivity|].
      now destruct (success s).
Qed.

Lemma messages_stay_visible_witness :
  let ls : Storage := fun _ => Some (js "secret") in
  let st := draft "see #1" 6 false [] in
  let p := run ls (handleUpdatePost (QString (js "12")) st) (start st) in
  let silent := AxiosError (Some {| error_status := 500;
                                    error_message := Some [] |}) in
  messages_visible (state (snd (resume ls (fst p) (Rejected silent) (snd p)))).
Proof.
  intros ls st p silent.
  apply (proj2 (proj1 (proj2 messages_stay_visible) ls ls
                  (QString (js "12")) st
                  {| value := []; selectionStart := 0 |}
                  {| template_id := 0; template_title := [] |} []
                  (handleUpdatePost (QString (js "12")) st)
                  (Rejected silent) (start st) (snd p)
                  ltac:(cbn [In]; tauto))).
  split; left; reflexivity.
Defined.

(** X21.  The three asynchronous functions cannot fail and do not retry:
    each sends at most one request when it is called, and when that
    request settles, in whatever way, the function sends nothing more and
    returns normally, so its promise is never rejected. *)
Theorem async_functions_settle :
  forall (ls ls' : Storage) (id : QueryValue) (st : State)
         (searchText : jsstring) (h : Async) (a : AxiosResult)
         (cfg cfg' : Config),
    In h [fetchBlogPost id; handleTemplateSearch searchText;
          handleUpdatePost id st] ->
    let p := run ls h cfg in
    let q := resume ls' (fst p) a cfg' in
    (requests (trace (snd p)) = requests (trace cfg)
     \/ exists r, awaited (fst p) = Some r
                  /\ requests (trace (snd p)) = requests (trace cfg) ++ [r])
    /\ fst q = Finished Normal
    /\ requests (trace (snd q)) = requests (trace cfg').
Proof.
  intros ls ls' id st searchText h a cfg cfg' Hin.
  assert (Hreq : forall r, requests (trace cfg ++ [Issued r])
                           = requests (trace cfg) ++ [r]).
  { intros r. unfold requests. now rewrite flat_map_app. }
  assert (Hlog : forall tr ev,
            match ev with Issued _ => False | _ => True end ->
            requests (tr ++ [ev]) = requests tr).
  { intros tr ev Hev. unfold requests. rewrite flat_map_app.
    destruct ev; [contradiction| |]; apply app_nil_r. }
  cbn [In] in Hin. cbv zeta.
  destruct Hin as [<-|[<-|[<-|[]]]].
  - load_cases ls id;
      try (split; [left; reflexivity | split; reflexivity]).
    split; [right; eexists; split; [reflexivity|apply Hreq]|].
    settle_cases a; split; reflexivity.
  - run_handler.
    split; [right; eexists; split; [reflexivity|apply Hreq]|].
    settle_cases a; (split; [reflexivity|]);
      first [reflexivity | now apply Hlog].
  - update_cases ls st;
      try (split; [left; reflexivity | split; reflexivity]).
    split; [right; eexists; split; [reflexivity|apply Hreq]|].
    settle_cases a; (split; [reflexivity|]);
      first [reflexivity | now apply Hlog].
Qed.

Lemma async_functions_settle_witness :
  let ls : Storage := fun _ => Some (js "secret") in
  let p := run ls (handleTemplateSearch (js "fo")) (start initialState) in
  let q := resume ls (fst p) (Rejected (AxiosError None)) (snd p) in
  fst q = Finished Normal
  /\ requests (trace (snd q)) = [search_request (js "fo")].
Proof.
  intros ls p q.
  pose proof (@async_functions_settle ls ls QUndefined initialState
                (js "fo") (handleTemplateSearch (js "fo"))
                (Rejected (AxiosError None)) (start initialState) (snd p)
                ltac:(cbn [In]; tauto)) as H.
  cbv zeta in H. destruct H as (_ & Hfin & Hreq).
  split; [exact Hfin | exact Hreq].
Defined.

End Update.
